(** * QWAMOS: boot-image signature verification and the USB kill-switch driver

    A shallow embedding of

      - bootloader/kyber1024_verify.h and bootloader/kyber1024_verify.c
      - hypervisor/drivers/usb_killswitch.c

    The C functions become state-passing functions: the state of the
    bootloader is the ordered trace of what it printed and of the liboqs
    primitives it called; the state of the driver is its [ks_state] global,
    the GPIO lines and the kernel log.  liboqs and the kernel's [sscanf]
    are not part of the repository: they are interfaces ([LibOQS],
    [KernelLib]) that every theorem quantifies over. *)

From Stdlib Require Import ZArith List String Ascii Lia Bool DecimalString.
From Stdlib.Strings Require Import Byte.
Import ListNotations.
Open Scope string_scope.
Open Scope list_scope.
Open Scope Z_scope.

(* ================================================================== *)
(** * State passing *)
(* ================================================================== *)

(** A C function that returns [A] and acts on a state [S]. *)
Definition M (S A : Type) : Type := S -> A * S.

Definition ret {S A : Type} (a : A) : M S A := fun s => (a, s).

Definition bind {S A B : Type} (m : M S A) (k : A -> M S B) : M S B :=
  fun s => let (a, s') := m s in k a s'.

Declare Scope cmd_scope.
Delimit Scope cmd_scope with cmd.
Notation "x <- m ;; k" := (bind m (fun x => k))
  (at level 61, m at next level, right associativity) : cmd_scope.
Notation "m ;; k" := (bind m (fun _ => k))
  (at level 61, right associativity) : cmd_scope.
Open Scope cmd_scope.

(** [for (int i = 0; i < n; i++) body(i);] *)
Fixpoint for_loop {S : Type} (n : nat) (i : Z) (body : Z -> M S unit) : M S unit :=
  match n with
  | O => ret tt
  | S n' => body i ;; for_loop n' (i + 1) body
  end.

(* ================================================================== *)
(** * bootloader/kyber1024_verify.h *)
(* ================================================================== *)

Definition KYBER1024_PUBLIC_KEY_BYTES : Z := 1568.
Definition KYBER1024_SECRET_KEY_BYTES : Z := 3168.
Definition KYBER1024_CIPHERTEXT_BYTES : Z := 1568.
Definition KYBER1024_SHARED_SECRET_BYTES : Z := 32.
Definition KYBER1024_SIGNATURE_BYTES : Z := 3309.

Definition QWAMOS_SIG_MAGIC : Z := 0x4D415751.
Definition QWAMOS_SIG_VERSION : Z := 1.

(** ** Memory

    The bootloader is handed raw addresses ([uintptr_t]) of images that
    the loader placed in memory.  Memory is byte addressed; an address is
    a [Z] and pointer arithmetic is exact ([image + size] is the address
    [image + size]).  The target is little-endian (the header spells the magic
    0x4D415751 as 'QWAM': 'Q' = 0x51 is the byte at the lowest address). *)
Definition memory : Type := Z -> byte.

Definition uint8 (b : byte) : Z := Z.of_N (Byte.to_N b).

(** The [n] bytes at [addr], [addr + 1], ... *)
Definition load_bytes (m : memory) (addr n : Z) : list byte :=
  map (fun i => m (addr + Z.of_nat i)) (seq 0 (Z.to_nat n)).

(** Little-endian value of a byte string. *)
Fixpoint le_uint (bs : list byte) : Z :=
  match bs with
  | [] => 0
  | b :: bs' => uint8 b + 256 * le_uint bs'
  end.

Definition load_uint32 (m : memory) (addr : Z) : Z := le_uint (load_bytes m addr 4).

(** ** [struct qwamos_signature], [__attribute__((packed))]

    A pointer to the record is the address of its first byte; the fields
    lie at fixed offsets with no padding between them. *)
Definition offsetof_magic : Z := 0.
Definition offsetof_version : Z := 4.
Definition offsetof_image_size : Z := 8.
Definition offsetof_image_hash : Z := 12.
Definition offsetof_kyber_signature : Z := 44.
Definition offsetof_reserved : Z := 44 + KYBER1024_SIGNATURE_BYTES.
Definition sizeof_qwamos_signature : Z := offsetof_reserved + 64.

(** [signature->magic] and the other fields, for [signature] a pointer
    into [m]. *)
Definition sig_magic (m : memory) (signature : Z) : Z :=
  load_uint32 m (signature + offsetof_magic).
Definition sig_version (m : memory) (signature : Z) : Z :=
  load_uint32 m (signature + offsetof_version).
Definition sig_image_size (m : memory) (signature : Z) : Z :=
  load_uint32 m (signature + offsetof_image_size).
Definition sig_image_hash (m : memory) (signature : Z) : list byte :=
  load_bytes m (signature + offsetof_image_hash) 32.
Definition sig_kyber_signature (m : memory) (signature : Z) : list byte :=
  load_bytes m (signature + offsetof_kyber_signature) KYBER1024_SIGNATURE_BYTES.

(* ================================================================== *)
(** * liboqs, as the bootloader uses it *)
(* ================================================================== *)

Inductive OQS_STATUS : Type :=
| OQS_ERROR
| OQS_SUCCESS
| OQS_EXTERNAL_LIB_ERROR_OPENSSL.

Definition OQS_STATUS_eqb (a b : OQS_STATUS) : bool :=
  match a, b with
  | OQS_ERROR, OQS_ERROR => true
  | OQS_SUCCESS, OQS_SUCCESS => true
  | OQS_EXTERNAL_LIB_ERROR_OPENSSL, OQS_EXTERNAL_LIB_ERROR_OPENSSL => true
  | _, _ => false
  end.

(** The part of liboqs' [OQS_SIG] object that the bootloader reads. *)
Record OQS_SIG : Type := mkOQS_SIG {
  method_name : string;
  length_public_key : Z;
  length_signature : Z
}.

Definition OQS_SIG_alg_dilithium_5 : string := "Dilithium5".

(** liboqs is linked in, not part of the repository.  Its three entry
    points are functions of their arguments; a pointer argument is passed
    as the object it points to.
      - [OQS_SHA2_sha256 data] is the content of the 32-byte output buffer
        after the call;
      - [OQS_SIG_new alg] is [None] for the NULL pointer;
      - [OQS_SIG_verify sig message message_len signature signature_len
        public_key].
    The C code hands liboqs raw pointers, and as [signature_len] the
    scheme's own [length_signature], whatever the size of the record's
    field.  What the library reads beyond the end of the objects passed
    here is not represented: the theorems below hold for whatever a call
    answers, and none of them compares calls made on different buffers. *)
Class LibOQS : Type := {
  OQS_SHA2_sha256 : list byte -> list byte;
  OQS_SHA2_sha256_length : forall data, List.length (OQS_SHA2_sha256 data) = 32%nat;
  OQS_SIG_new : string -> option OQS_SIG;
  OQS_SIG_verify :
    OQS_SIG -> list byte -> Z -> list byte -> Z -> list byte -> OQS_STATUS
}.

(** ** What the bootloader does to the outside world *)

Inductive oqs_function : Type :=
| fn_OQS_SHA2_sha256
| fn_OQS_SIG_new
| fn_OQS_SIG_verify
| fn_OQS_SIG_free.

(** One entry per [printf] call (the format string as the source writes
    it, and the values of its arguments) and per call into liboqs. *)
Inductive event : Type :=
| Printf (format : string) (args : list Z)
| Call (f : oqs_function).

Definition trace : Type := list event.

Definition emit (e : event) : M trace unit := fun t => (tt, t ++ [e]).

Definition printf (format : string) (args : list Z) : M trace unit :=
  emit (Printf format args).

(** The calls into liboqs recorded in a trace, in order. *)
Fixpoint liboqs_calls (t : trace) : list oqs_function :=
  match t with
  | [] => []
  | Call f :: t' => f :: liboqs_calls t'
  | Printf _ _ :: t' => liboqs_calls t'
  end.

(** A computation that writes to the console and calls liboqs but never
    reads back what was done before: started on a trace [t], it returns
    what it returns on the empty trace and appends the same events to
    [t]. *)
Definition appends {A : Type} (m : M trace A) : Prop :=
  forall t, m t = (fst (m []), t ++ snd (m [])).

(** [memcmp(a, b, n)]: 0 when the first [n] bytes agree, otherwise the
    difference of the first two bytes that differ. *)
Fixpoint memcmp (a b : list byte) (n : nat) {struct n} : Z :=
  match n with
  | O => 0
  | S n' =>
      match a, b with
      | x :: a', y :: b' =>
          if Byte.eqb x y then memcmp a' b' n' else uint8 x - uint8 y
      | [], [] => 0
      | [], _ :: _ => -1
      | _ :: _, [] => 1
      end
  end.

(** [array[i]] as an integer, for the hex dump of a hash. *)
Definition byte_at (bs : list byte) (i : Z) : Z :=
  uint8 (nth (Z.to_nat i) bs x00).

(* ================================================================== *)
(** * bootloader/kyber1024_verify.c *)
(* ================================================================== *)

(** [static const uint8_t qwamos_public_key[KYBER1024_PUBLIC_KEY_BYTES] =
    { [0 ... KYBER1024_PUBLIC_KEY_BYTES-1] = 0x00 };] *)
Definition qwamos_public_key : list byte :=
  repeat x00 (Z.to_nat KYBER1024_PUBLIC_KEY_BYTES).

Section Bootloader.

Context {oqs : LibOQS}.

(** [void sha256_hash(data, data_size, hash_out)]; the result is what
    [hash_out] holds afterwards. *)
Definition sha256_hash (data : list byte) : M trace (list byte) :=
  emit (Call fn_OQS_SHA2_sha256) ;;
  ret (OQS_SHA2_sha256 data).

Definition kyber1024_verify_signature
    (message : list byte) (message_len : Z)
    (signature : list byte) (public_key : list byte) : M trace Z :=
  (* sig = OQS_SIG_new(OQS_SIG_alg_dilithium_5); *)
  emit (Call fn_OQS_SIG_new) ;;
  match OQS_SIG_new OQS_SIG_alg_dilithium_5 with
  | None =>
      printf "ERROR: Failed to initialize Kyber signature scheme\n" [] ;;
      ret (-1)
  | Some sig =>
      emit (Call fn_OQS_SIG_verify) ;;
      result <-
        (if OQS_STATUS_eqb
              (OQS_SIG_verify sig message message_len signature
                 (length_signature sig) public_key)
              OQS_SUCCESS
         then ret 0
         else printf "ERROR: Signature verification failed!\n" [] ;;
              ret (-1)) ;;
      emit (Call fn_OQS_SIG_free) ;;
      ret result
  end.

Definition kyber1024_verify_image
    (m : memory) (image : Z) (image_size : Z) (signature : Z)
    (public_key : list byte) : M trace Z :=
  (* Verify magic number *)
  if negb (sig_magic m signature =? QWAMOS_SIG_MAGIC) then
    printf "ERROR: Invalid signature magic: 0x%08x\n" [sig_magic m signature] ;;
    ret (-1)
  (* Verify version *)
  else if negb (sig_version m signature =? QWAMOS_SIG_VERSION) then
    printf "ERROR: Unsupported signature version: %d\n" [sig_version m signature] ;;
    ret (-1)
  (* Verify image size matches *)
  else if negb (sig_image_size m signature =? image_size) then
    printf "ERROR: Image size mismatch: expected %u, got %zu\n"
           [sig_image_size m signature; image_size] ;;
    ret (-1)
  else
    (* Compute SHA-256 hash of image *)
    computed_hash <- sha256_hash (load_bytes m image image_size) ;;
    (* Verify hash matches signature *)
    if negb (memcmp computed_hash (sig_image_hash m signature) 32 =? 0) then
      printf "ERROR: Image hash mismatch!\n" [] ;;
      printf "  Expected: " [] ;;
      for_loop 32 0 (fun i =>
        printf "%02x" [byte_at (sig_image_hash m signature) i]) ;;
      printf "\n  Computed: " [] ;;
      for_loop 32 0 (fun i => printf "%02x" [byte_at computed_hash i]) ;;
      printf "\n" [] ;;
      ret (-1)
    else
      (* Verify Kyber-1024 signature *)
      printf "Verifying Kyber-1024 signature...\n" [] ;;
      r <- kyber1024_verify_signature computed_hash 32
             (sig_kyber_signature m signature) public_key ;;
      if negb (r =? 0) then
        printf "ERROR: Kyber-1024 signature verification failed!\n" [] ;;
        ret (-1)
      else
        printf "SUCCESS: Image signature verified (Kyber-1024)\n" [] ;;
        ret 0.

Definition kyber1024_verify_kernel (m : memory) (kernel_addr kernel_size : Z)
  : M trace Z :=
  let kernel_image := kernel_addr in
  printf "=== QWAMOS Secure Boot: Kernel Verification ===\n" [] ;;
  printf "Kernel address: 0x%lx\n" [kernel_addr] ;;
  printf "Kernel size: %zu bytes\n" [kernel_size] ;;
  (* Signature is appended after kernel image *)
  let sig := kernel_image + kernel_size in
  r <- kyber1024_verify_image m kernel_image kernel_size sig qwamos_public_key ;;
  if negb (r =? 0) then
    printf "CRITICAL: Kernel signature verification FAILED!\n" [] ;;
    printf "Boot process halted for security.\n" [] ;;
    ret (-1)
  else
    printf "Kernel signature verified successfully.\n" [] ;;
    ret 0.

Definition kyber1024_verify_initramfs (m : memory)
    (initramfs_addr initramfs_size : Z) : M trace Z :=
  let initramfs_image := initramfs_addr in
  printf "=== QWAMOS Secure Boot: Initramfs Verification ===\n" [] ;;
  printf "Initramfs address: 0x%lx\n" [initramfs_addr] ;;
  printf "Initramfs size: %zu bytes\n" [initramfs_size] ;;
  (* Signature is appended after initramfs *)
  let sig := initramfs_image + initramfs_size in
  r <- kyber1024_verify_image m initramfs_image initramfs_size sig
         qwamos_public_key ;;
  if negb (r =? 0) then
    printf "CRITICAL: Initramfs signature verification FAILED!\n" [] ;;
    printf "Boot process halted for security.\n" [] ;;
    ret (-1)
  else
    printf "Initramfs signature verified successfully.\n" [] ;;
    ret 0.

End Bootloader.

(** [memcpy(dst, src, n)] on buffers: the first [n] bytes of [dst] are
    replaced by the first [n] bytes of [src]. *)
Definition memcpy (dst src : list byte) (n : Z) : list byte :=
  firstn (Z.to_nat n) src ++ skipn (Z.to_nat n) dst.

(** [int kyber1024_load_public_key(uint8_t *key_buffer, size_t key_size)];
    returns the status and what [key_buffer] holds afterwards. *)
Definition kyber1024_load_public_key (key_buffer : list byte) (key_size : Z)
  : M trace (Z * list byte) :=
  if key_size <? KYBER1024_PUBLIC_KEY_BYTES then
    printf "ERROR: Key buffer too small\n" [] ;;
    ret (-1, key_buffer)
  else
    (* Copy embedded public key *)
    ret (0, memcpy key_buffer qwamos_public_key KYBER1024_PUBLIC_KEY_BYTES).

(** [int secure_boot_verify_chain(void)].  The local [public_key] array
    is not initialised in the source; [stack] is what it holds on entry. *)
Definition secure_boot_verify_chain (stack : list byte) : M trace Z :=
  printf "\n" [] ;;
  printf "================================================================================\n" [] ;;
  printf "                    QWAMOS SECURE BOOT VERIFICATION\n" [] ;;
  printf "           Post-Quantum Cryptography: Kyber-1024 (NIST FIPS 203)\n" [] ;;
  printf "================================================================================\n" [] ;;
  printf "\n" [] ;;
  printf "Step 1: Loading public key...\n" [] ;;
  let public_key := stack in
  let sizeof_public_key := KYBER1024_PUBLIC_KEY_BYTES in
  r <- kyber1024_load_public_key public_key sizeof_public_key ;;
  if negb (fst r =? 0) then
    printf "CRITICAL: Failed to load public key!\n" [] ;;
    ret (-1)
  else
    printf "Public key loaded successfully.\n\n" [] ;;
    printf "================================================================================\n" [] ;;
    printf "QWAMOS Secure Boot: Ready to verify boot images\n" [] ;;
    printf "================================================================================\n" [] ;;
    printf "\n" [] ;;
    ret 0.

(* ================================================================== *)
(** * hypervisor/drivers/usb_killswitch.c *)
(* ================================================================== *)

Definition GPIO_CAMERA_KILL : Z := 123.
Definition GPIO_MIC_KILL : Z := 124.
Definition GPIO_CELLULAR_KILL : Z := 125.

Definition EINVAL : Z := 22.

(** [struct killswitch_state] *)
Record killswitch_state : Type := mk_killswitch_state {
  camera_enabled : Z;
  mic_enabled : Z;
  cellular_enabled : Z
}.

Inductive log_arg : Type :=
| arg_int (v : Z)
| arg_str (s : string).

(** What the driver acts on: its global [ks_state], the level of every
    GPIO line (indexed by pin number) and the kernel log. *)
Record ks_world : Type := mk_ks_world {
  ks_state : killswitch_state;
  gpio_level : Z -> Z;
  kernel_log : list (string * list log_arg)
}.

(** [static struct killswitch_state ks_state = { 0, 0, 0 };] *)
Definition ks_state_initial : killswitch_state := mk_killswitch_state 0 0 0.

(** The kernel's [sscanf] is not part of the repository.
    [sscanf_d buf] stands for [sscanf(buf, "%d", &value)]: [Some v] when
    the call returns 1 and leaves [v] in [value], [None] when it returns
    anything else. *)
Class KernelLib : Type := {
  sscanf_d : string -> option Z
}.

Definition pr_info (format : string) (args : list log_arg) : M ks_world unit :=
  fun w => (tt, mk_ks_world (ks_state w) (gpio_level w)
                  (kernel_log w ++ [(format, args)])).

(** gpiolib's [gpio_set_value(pin, value)]: drives the line high for a
    non-zero value, low for 0. *)
Definition gpio_set_value (gpio_pin value : Z) : M ks_world unit :=
  fun w => (tt, mk_ks_world (ks_state w)
                  (fun pin => if pin =? gpio_pin
                              then (if value =? 0 then 0 else 1)
                              else gpio_level w pin)
                  (kernel_log w)).

(** gpiolib's [gpio_get_value(pin)]. *)
Definition gpio_get_value (gpio_pin : Z) : M ks_world Z :=
  fun w => (gpio_level w gpio_pin, w).

Definition get_ks_state : M ks_world killswitch_state :=
  fun w => (ks_state w, w).

Definition set_ks_state (s : killswitch_state) : M ks_world unit :=
  fun w => (tt, mk_ks_world s (gpio_level w) (kernel_log w)).

Definition gpio_set_state (gpio_pin value : Z) : M ks_world unit :=
  gpio_set_value gpio_pin value ;;
  pr_info "[USB KillSwitch] GPIO %d set to %d\n" [arg_int gpio_pin; arg_int value].

Definition gpio_get_state (gpio_pin : Z) : M ks_world Z :=
  gpio_get_value gpio_pin.

Definition newline : string := String (ascii_of_nat 10) EmptyString.

(** What [sprintf(buf, "%d\n", v)] writes to [buf]; the call returns the
    length of that text. *)
Definition sprintf_d_newline (v : Z) : string :=
  (NilZero.string_of_int (Z.to_int v) ++ newline)%string.

Definition strlen (s : string) : Z := Z.of_nat (String.length s).

Section Killswitch.

Context {kernel : KernelLib}.

(** [camera_show] returns the byte count and the text left in [buf]. *)
Definition camera_show : M ks_world (Z * string) :=
  s <- get_ks_state ;;
  let buf := sprintf_d_newline (camera_enabled s) in
  ret (strlen buf, buf).

Definition camera_store (buf : string) (count : Z) : M ks_world Z :=
  match sscanf_d buf with
  | None => ret (- EINVAL)
  | Some value =>
      if negb (value =? 0) && negb (value =? 1) then ret (- EINVAL)
      else
        s <- get_ks_state ;;
        set_ks_state (mk_killswitch_state value (mic_enabled s) (cellular_enabled s)) ;;
        gpio_set_state GPIO_CAMERA_KILL value ;;
        pr_info "[USB KillSwitch] Camera kill switch: %s\n"
          [arg_str (if negb (value =? 0) then "ENABLED (camera OFF)"
                    else "DISABLED (camera ON)")] ;;
        ret count
  end.

Definition mic_show : M ks_world (Z * string) :=
  s <- get_ks_state ;;
  let buf := sprintf_d_newline (mic_enabled s) in
  ret (strlen buf, buf).

Definition mic_store (buf : string) (count : Z) : M ks_world Z :=
  match sscanf_d buf with
  | None => ret (- EINVAL)
  | Some value =>
      if negb (value =? 0) && negb (value =? 1) then ret (- EINVAL)
      else
        s <- get_ks_state ;;
        set_ks_state (mk_killswitch_state (camera_enabled s) value (cellular_enabled s)) ;;
        gpio_set_state GPIO_MIC_KILL value ;;
        pr_info "[USB KillSwitch] Microphone kill switch: %s\n"
          [arg_str (if negb (value =? 0) then "ENABLED (mic OFF)"
                    else "DISABLED (mic ON)")] ;;
        ret count
  end.

Definition cellular_show : M ks_world (Z * string) :=
  s <- get_ks_state ;;
  let buf := sprintf_d_newline (cellular_enabled s) in
  ret (strlen buf, buf).

Definition cellular_store (buf : string) (count : Z) : M ks_world Z :=
  match sscanf_d buf with
  | None => ret (- EINVAL)
  | Some value =>
      if negb (value =? 0) && negb (value =? 1) then ret (- EINVAL)
      else
        s <- get_ks_state ;;
        set_ks_state (mk_killswitch_state (camera_enabled s) (mic_enabled s) value) ;;
        gpio_set_state GPIO_CELLULAR_KILL value ;;
        pr_info "[USB KillSwitch] Cellular kill switch: %s\n"
          [arg_str (if negb (value =? 0) then "ENABLED (cellular OFF)"
                    else "DISABLED (cellular ON)")] ;;
        ret count
  end.

(** The three writable sysfs attributes of [ks_attrs], by the names
    [__ATTR] gives them, with the handlers and the GPIO line and the
    [ks_state] field each one is wired to. *)
Inductive attribute : Type :=
| killswitch_camera
| killswitch_mic
| killswitch_cellular.

Definition attr_show (a : attribute) : M ks_world (Z * string) :=
  match a with
  | killswitch_camera => camera_show
  | killswitch_mic => mic_show
  | killswitch_cellular => cellular_show
  end.

Definition attr_store (a : attribute) : string -> Z -> M ks_world Z :=
  match a with
  | killswitch_camera => camera_store
  | killswitch_mic => mic_store
  | killswitch_cellular => cellular_store
  end.

End Killswitch.

Definition attr_gpio (a : attribute) : Z :=
  match a with
  | killswitch_camera => GPIO_CAMERA_KILL
  | killswitch_mic => GPIO_MIC_KILL
  | killswitch_cellular => GPIO_CELLULAR_KILL
  end.

Definition attr_field (a : attribute) : killswitch_state -> Z :=
  match a with
  | killswitch_camera => camera_enabled
  | killswitch_mic => mic_enabled
  | killswitch_cellular => cellular_enabled
  end.

Definition attribute_eqb (a b : attribute) : bool :=
  match a, b with
  | killswitch_camera, killswitch_camera => true
  | killswitch_mic, killswitch_mic => true
  | killswitch_cellular, killswitch_cellular => true
  | _, _ => false
  end.

(** ** The aggregate status attribute *)

(** [enabled ? "OFF" : "ON"] *)
Definition off_or_on (enabled : Z) : string :=
  if negb (enabled =? 0) then "OFF" else "ON".

(** [status_show] returns the byte count and the text [sprintf] leaves in
    [buf] for the format "Camera: %s\nMic: %s\nCellular: %s\n". *)
Definition status_show : M ks_world (Z * string) :=
  s <- get_ks_state ;;
  let buf :=
    ("Camera: " ++ off_or_on (camera_enabled s) ++ newline ++
     "Mic: " ++ off_or_on (mic_enabled s) ++ newline ++
     "Cellular: " ++ off_or_on (cellular_enabled s) ++ newline)%string in
  ret (strlen buf, buf).

(** ** Module load and unload *)

Definition ENOMEM : Z := 12.

(** What loading and unloading the module act on: the driver's
    [ks_world], the GPIO lines the driver has requested and not freed,
    whether the object behind [ks_kobj] exists and whether the attribute
    group is registered in sysfs. *)
Record ks_module : Type := mk_ks_module {
  world : ks_world;
  gpio_held : list Z;
  ks_kobj : bool;
  ks_attr_group : bool
}.

(** gpiolib and sysfs are not part of the repository.  Whether their
    calls succeed is up to the kernel the module is loaded into:
    [gpio_request_ret pin] and [gpio_direction_output_ret pin] are the
    values [gpio_request] and [gpio_direction_output] return for that pin
    (0 on success), [kobject_create_and_add_ok] tells whether
    [kobject_create_and_add] returns an object rather than NULL and
    [sysfs_create_group_ret] is what [sysfs_create_group] returns. *)
Class KernelEnv : Type := {
  gpio_request_ret : Z -> Z;
  gpio_direction_output_ret : Z -> Z;
  kobject_create_and_add_ok : bool;
  sysfs_create_group_ret : Z
}.

(** A function of the driver proper, run as part of load or unload. *)
Definition on_world {A : Type} (m : M ks_world A) : M ks_module A :=
  fun s =>
    let (a, w) := m (world s) in
    (a, mk_ks_module w (gpio_held s) (ks_kobj s) (ks_attr_group s)).

Definition pr_err (format : string) (args : list log_arg) : M ks_module unit :=
  on_world (pr_info format args).

(** [gpio_free(pin)]: the line is no longer held. *)
Definition gpio_free (gpio_pin : Z) : M ks_module unit :=
  fun s => (tt, mk_ks_module (world s) (remove Z.eq_dec gpio_pin (gpio_held s))
                  (ks_kobj s) (ks_attr_group s)).

(** [kobject_put(ks_kobj)]: the last reference is dropped. *)
Definition kobject_put : M ks_module unit :=
  fun s => (tt, mk_ks_module (world s) (gpio_held s) false (ks_attr_group s)).

(** [sysfs_remove_group(ks_kobj, &ks_attr_group)] *)
Definition sysfs_remove_group : M ks_module unit :=
  fun s => (tt, mk_ks_module (world s) (gpio_held s) (ks_kobj s) false).

Section ModuleLifecycle.

Context {env : KernelEnv}.

(** [gpio_request(pin, label)]: on success the line is held. *)
Definition gpio_request (gpio_pin : Z) (label : string) : M ks_module Z :=
  fun s =>
    let r := gpio_request_ret gpio_pin in
    (r, if r =? 0
        then mk_ks_module (world s) (gpio_pin :: gpio_held s)
               (ks_kobj s) (ks_attr_group s)
        else s).

(** [gpio_direction_output(pin, value)]: on success the line is an
    output driven to [value]. *)
Definition gpio_direction_output (gpio_pin value : Z) : M ks_module Z :=
  fun s =>
    let r := gpio_direction_output_ret gpio_pin in
    (r, if r =? 0
        then snd (on_world (gpio_set_value gpio_pin value) s)
        else s).

(** [ks_kobj = kobject_create_and_add("usb_killswitch", kernel_kobj)];
    the result tells whether [ks_kobj] is non-NULL. *)
Definition kobject_create_and_add (name : string) : M ks_module bool :=
  fun s =>
    if kobject_create_and_add_ok
    then (true, mk_ks_module (world s) (gpio_held s) true (ks_attr_group s))
    else (false, s).

(** [sysfs_create_group(ks_kobj, &ks_attr_group)] *)
Definition sysfs_create_group : M ks_module Z :=
  fun s =>
    let r := sysfs_create_group_ret in
    (r, if r =? 0
        then mk_ks_module (world s) (gpio_held s) (ks_kobj s) true
        else s).

Definition gpio_init (gpio_pin : Z) (label : string) (initial_value : Z)
  : M ks_module Z :=
  r <- gpio_request gpio_pin label ;;
  if negb (r =? 0) then
    pr_err "[USB KillSwitch] Failed to request GPIO %d (%s): %d\n"
      [arg_int gpio_pin; arg_str label; arg_int r] ;;
    ret r
  else
    r <- gpio_direction_output gpio_pin initial_value ;;
    if negb (r =? 0) then
      pr_err "[USB KillSwitch] Failed to set GPIO %d direction: %d\n"
        [arg_int gpio_pin; arg_int r] ;;
      gpio_free gpio_pin ;;
      ret r
    else
      on_world (pr_info "[USB KillSwitch] GPIO %d (%s) initialized: %d\n"
                  [arg_int gpio_pin; arg_str label; arg_int initial_value]) ;;
      ret 0.

Definition gpio_cleanup (gpio_pin : Z) : M ks_module unit :=
  gpio_free gpio_pin.

Definition usb_killswitch_init : M ks_module Z :=
  on_world (pr_info "[USB KillSwitch] Initializing driver v1.0.0\n" []) ;;
  (* Initialize GPIOs *)
  r <- gpio_init GPIO_CAMERA_KILL "camera_kill" 0 ;;
  if negb (r =? 0) then ret r
  else
  r <- gpio_init GPIO_MIC_KILL "mic_kill" 0 ;;
  if negb (r =? 0) then
    gpio_cleanup GPIO_CAMERA_KILL ;;
    ret r
  else
  r <- gpio_init GPIO_CELLULAR_KILL "cellular_kill" 0 ;;
  if negb (r =? 0) then
    gpio_cleanup GPIO_CAMERA_KILL ;;
    gpio_cleanup GPIO_MIC_KILL ;;
    ret r
  else
  (* Create sysfs interface *)
  kobj <- kobject_create_and_add "usb_killswitch" ;;
  if negb kobj then
    pr_err "[USB KillSwitch] Failed to create sysfs kobject\n" [] ;;
    gpio_cleanup GPIO_CAMERA_KILL ;;
    gpio_cleanup GPIO_MIC_KILL ;;
    gpio_cleanup GPIO_CELLULAR_KILL ;;
    ret (- ENOMEM)
  else
  r <- sysfs_create_group ;;
  if negb (r =? 0) then
    pr_err "[USB KillSwitch] Failed to create sysfs group: %d\n" [arg_int r] ;;
    kobject_put ;;
    gpio_cleanup GPIO_CAMERA_KILL ;;
    gpio_cleanup GPIO_MIC_KILL ;;
    gpio_cleanup GPIO_CELLULAR_KILL ;;
    ret r
  else
    on_world (pr_info "[USB KillSwitch] Driver loaded successfully\n" []) ;;
    on_world (pr_info "[USB KillSwitch] Sysfs: /sys/kernel/usb_killswitch/\n" []) ;;
    on_world (pr_info "[USB KillSwitch] Camera:   /sys/kernel/usb_killswitch/killswitch_camera\n" []) ;;
    on_world (pr_info "[USB KillSwitch] Mic:      /sys/kernel/usb_killswitch/killswitch_mic\n" []) ;;
    on_world (pr_info "[USB KillSwitch] Cellular: /sys/kernel/usb_killswitch/killswitch_cellular\n" []) ;;
    on_world (pr_info "[USB KillSwitch] Status:   /sys/kernel/usb_killswitch/status\n" []) ;;
    ret 0.

End ModuleLifecycle.

Definition usb_killswitch_exit : M ks_module unit :=
  on_world (pr_info "[USB KillSwitch] Unloading driver\n" []) ;;
  (* Remove sysfs interface *)
  sysfs_remove_group ;;
  kobject_put ;;
  (* Cleanup GPIOs (restore to LOW = normal operation) *)
  on_world (gpio_set_state GPIO_CAMERA_KILL 0) ;;
  on_world (gpio_set_state GPIO_MIC_KILL 0) ;;
  on_world (gpio_set_state GPIO_CELLULAR_KILL 0) ;;
  gpio_cleanup GPIO_CAMERA_KILL ;;
  gpio_cleanup GPIO_MIC_KILL ;;
  gpio_cleanup GPIO_CELLULAR_KILL ;;
  on_world (pr_info "[USB KillSwitch] Driver unloaded\n" []).

(** ** Using the driver *)

(** A user writing to the attributes one after the other: each entry is
    the attribute written, the text and its byte count. *)
Fixpoint write_all {kernel : KernelLib}
    (writes : list (attribute * string * Z)) : M ks_world unit :=
  match writes with
  | [] => ret tt
  | (a, buf, count) :: writes' =>
      attr_store a buf count ;; write_all writes'
  end.

(** The recorded state of every switch is 0 or 1 and is the level of its
    GPIO line. *)
Definition lines_mirror_state (w : ks_world) : Prop :=
  forall a,
    gpio_level w (attr_gpio a) = attr_field a (ks_state w) /\
    (attr_field a (ks_state w) = 0 \/ attr_field a (ks_state w) = 1).

(** The two log entries of an accepted write of [v] to [a]. *)
Definition gpio_log_entry (a : attribute) (v : Z) : string * list log_arg :=
  ("[USB KillSwitch] GPIO %d set to %d\n", [arg_int (attr_gpio a); arg_int v]).

Definition switch_log_entry (a : attribute) (v : Z) : string * list log_arg :=
  match a with
  | killswitch_camera =>
      ("[USB KillSwitch] Camera kill switch: %s\n",
       [arg_str (if v =? 1 then "ENABLED (camera OFF)"
                 else "DISABLED (camera ON)")])
  | killswitch_mic =>
      ("[USB KillSwitch] Microphone kill switch: %s\n",
       [arg_str (if v =? 1 then "ENABLED (mic OFF)"
                 else "DISABLED (mic ON)")])
  | killswitch_cellular =>
      ("[USB KillSwitch] Cellular kill switch: %s\n",
       [arg_str (if v =? 1 then "ENABLED (cellular OFF)"
                 else "DISABLED (cellular ON)")])
  end.

(** The steps of [usb_killswitch_init] that can fail, in the order the
    function takes them, each with the value it makes the function return
    when it fails (0 when the step succeeds). *)
Definition init_step_codes {env : KernelEnv} : list Z :=
  [gpio_request_ret GPIO_CAMERA_KILL;
   gpio_direction_output_ret GPIO_CAMERA_KILL;
   gpio_request_ret GPIO_MIC_KILL;
   gpio_direction_output_ret GPIO_MIC_KILL;
   gpio_request_ret GPIO_CELLULAR_KILL;
   gpio_direction_output_ret GPIO_CELLULAR_KILL;
   (if kobject_create_and_add_ok then 0 else - ENOMEM);
   sysfs_create_group_ret].

(* ================================================================== *)
(** * Concrete collaborators and inputs

    Used to run the functions above on explicit inputs. *)
(* ================================================================== *)

(** ** Memory images *)

Definition zero_memory : memory := fun _ => x00.

Definition byte_of_Z (z : Z) : byte :=
  match Byte.of_N (Z.to_N (z mod 256)) with
  | Some b => b
  | None => x00
  end.

(** The [n] little-endian bytes of [v]. *)
Fixpoint le_bytes (n : nat) (v : Z) : list byte :=
  match n with
  | O => []
  | S n' => byte_of_Z v :: le_bytes n' (v / 256)
  end.

(** [m] with [bs] written at [addr]. *)
Definition store_bytes (m : memory) (addr : Z) (bs : list byte) : memory :=
  fun a =>
    if (addr <=? a) && (a <? addr + Z.of_nat (List.length bs))
    then nth (Z.to_nat (a - addr)) bs x00
    else m a.

(** The first three fields of a signature record. *)
Definition trailer_header (magic version image_size : Z) : list byte :=
  le_bytes 4 magic ++ le_bytes 4 version ++ le_bytes 4 image_size.

(** A four-byte payload of zeros at address 0, followed at address 4 by
    a record with the right magic, version 1, image_size 4 and an
    all-zero hash and signature. *)
Definition image_well_formed : memory :=
  store_bytes zero_memory 4 (trailer_header QWAMOS_SIG_MAGIC 1 4).

(** The same payload followed by zeros only: the magic field reads 0. *)
Definition image_bad_magic : memory := zero_memory.

(** The same payload, right magic, version 2. *)
Definition image_bad_version : memory :=
  store_bytes zero_memory 4 (trailer_header QWAMOS_SIG_MAGIC 2 4).

(** The same payload, right magic and version, image_size 3. *)
Definition image_bad_size : memory :=
  store_bytes zero_memory 4 (trailer_header QWAMOS_SIG_MAGIC 1 3).

(** The same payload followed by the magic bytes only. *)
Definition image_magic_only : memory :=
  store_bytes zero_memory 4 (le_bytes 4 QWAMOS_SIG_MAGIC).

(** ** Stand-ins for liboqs *)

Definition zero_digest (data : list byte) : list byte := repeat x00 32.

Definition zero_digest_length (data : list byte) :
  List.length (zero_digest data) = 32%nat := eq_refl.

Definition dilithium_5 : OQS_SIG := mkOQS_SIG "Dilithium5" 2592 4595.

(** The digest is 32 zero bytes, the scheme is available and every
    signature is accepted. *)
Definition oqs_accepting : LibOQS := {|
  OQS_SHA2_sha256 := zero_digest;
  OQS_SHA2_sha256_length := zero_digest_length;
  OQS_SIG_new := fun _ => Some dilithium_5;
  OQS_SIG_verify := fun _ _ _ _ _ _ => OQS_SUCCESS
|}.

(** The scheme is available and every signature is rejected. *)
Definition oqs_rejecting : LibOQS := {|
  OQS_SHA2_sha256 := zero_digest;
  OQS_SHA2_sha256_length := zero_digest_length;
  OQS_SIG_new := fun _ => Some dilithium_5;
  OQS_SIG_verify := fun _ _ _ _ _ _ => OQS_ERROR
|}.

(** [OQS_SIG_new] returns NULL. *)
Definition oqs_unavailable : LibOQS := {|
  OQS_SHA2_sha256 := zero_digest;
  OQS_SHA2_sha256_length := zero_digest_length;
  OQS_SIG_new := fun _ => None;
  OQS_SIG_verify := fun _ _ _ _ _ _ => OQS_SUCCESS
|}.

(** ** A stand-in for the kernel's [sscanf(buf, "%d", &value)]

    Skips leading white space, takes an optional '-' and the decimal
    digits that follow, ignores what comes after them, and stores the
    number as a 32-bit [int]. *)

Definition isspace (c : ascii) : bool :=
  let n := nat_of_ascii c in
  ((9 <=? n) && (n <=? 13) || (n =? 32))%nat.

Definition isdigit (c : ascii) : bool :=
  let n := nat_of_ascii c in
  ((48 <=? n) && (n <=? 57))%nat.

Fixpoint skip_spaces (s : string) : string :=
  match s with
  | EmptyString => s
  | String c s' => if isspace c then skip_spaces s' else s
  end.

Fixpoint strtoull (s : string) (acc : Z) : Z :=
  match s with
  | EmptyString => acc
  | String c s' =>
      if isdigit c
      then strtoull s' (acc * 10 + (Z.of_nat (nat_of_ascii c) - 48))
      else acc
  end.

Definition to_int (z : Z) : Z := (z + 2 ^ 31) mod 2 ^ 32 - 2 ^ 31.

Definition scan_int (buf : string) : option Z :=
  match skip_spaces buf with
  | EmptyString => None
  | String c rest =>
      if Ascii.eqb c "-"%char then
        match rest with
        | EmptyString => None
        | String d _ =>
            if isdigit d then Some (to_int (- strtoull rest 0)) else None
        end
      else if isdigit c then Some (to_int (strtoull (String c rest) 0))
      else None
  end.

Definition kernel_scanning : KernelLib := {| sscanf_d := scan_int |}.

(** The driver right after [usb_killswitch_init]: all switches off, all
    lines low. *)
Definition ks_world_initial : ks_world :=
  mk_ks_world ks_state_initial (fun _ => 0) [].

(** A later state: camera and cellular switched on. *)
Definition ks_world_camera_cellular_on : ks_world :=
  mk_ks_world (mk_killswitch_state 1 0 1)
    (fun pin => if (pin =? GPIO_CAMERA_KILL) || (pin =? GPIO_CELLULAR_KILL)
                then 1 else 0)
    [].

(** The line [kyber1024_verify_image] prints before it returns 0. *)
Definition success_line : event :=
  Printf "SUCCESS: Image signature verified (Kyber-1024)\n" [].

(** The four-byte payload with a record that passes the header checks
    and whose image_hash starts with the byte 01. *)
Definition image_bad_hash : memory :=
  store_bytes zero_memory 4 (trailer_header QWAMOS_SIG_MAGIC 1 4 ++ [x01]).

(** ** Kernels to load the module into *)

(** Every call succeeds. *)
Definition env_all_ok : KernelEnv := {|
  gpio_request_ret := fun _ => 0;
  gpio_direction_output_ret := fun _ => 0;
  kobject_create_and_add_ok := true;
  sysfs_create_group_ret := 0
|}.

(** The cellular line cannot be made an output (-EINVAL). *)
Definition env_cellular_direction_fails : KernelEnv := {|
  gpio_request_ret := fun _ => 0;
  gpio_direction_output_ret :=
    fun pin => if pin =? GPIO_CELLULAR_KILL then - EINVAL else 0;
  kobject_create_and_add_ok := true;
  sysfs_create_group_ret := 0
|}.

(** The attribute group cannot be registered (-EEXIST). *)
Definition env_sysfs_fails : KernelEnv := {|
  gpio_request_ret := fun _ => 0;
  gpio_direction_output_ret := fun _ => 0;
  kobject_create_and_add_ok := true;
  sysfs_create_group_ret := -17
|}.

(** The module before it is loaded: nothing held, nothing in sysfs. *)
Definition ks_module_unloaded : ks_module :=
  mk_ks_module ks_world_initial [] false false.

(** A loaded module with the camera and cellular switches on. *)
Definition ks_module_in_use : ks_module :=
  mk_ks_module ks_world_camera_cellular_on
    [GPIO_CELLULAR_KILL; GPIO_MIC_KILL; GPIO_CAMERA_KILL] true true.

(* ------------------------------------------------------------------ *)
(** Sanity runs of the definitions above. *)

Example image_well_formed_fields :
  sig_magic image_well_formed 4 = QWAMOS_SIG_MAGIC /\
  sig_version image_well_formed 4 = 1 /\
  sig_image_size image_well_formed 4 = 4.
Proof. repeat split; vm_compute; reflexivity. Qed.

Example verify_kernel_accepts_well_formed :
  fst (@kyber1024_verify_kernel oqs_accepting image_well_formed 0 4 []) = 0.
Proof. vm_compute. reflexivity. Qed.

Example verify_kernel_rejects_bad_signature :
  fst (@kyber1024_verify_kernel oqs_rejecting image_well_formed 0 4 []) = -1.
Proof. vm_compute. reflexivity. Qed.

Example scan_int_examples :
  scan_int "1" = Some 1 /\ scan_int "0" = Some 0 /\
  scan_int " -7 volts" = Some (-7) /\ scan_int "on" = None /\
  scan_int "" = None /\ scan_int "4294967297" = Some 1.
Proof. repeat split; vm_compute; reflexivity. Qed.

Example camera_store_then_show :
  let w := snd (@camera_store kernel_scanning "1" 2 ks_world_initial) in
  fst (@camera_show w) = (2, sprintf_d_newline 1).
Proof. vm_compute. reflexivity. Qed.

(* ================================================================== *)
(** * State passing: basic facts *)
(* ================================================================== *)

Section MonadFacts.

Context {S A B : Type}.

Lemma bind_run (m : M S A) (k : A -> M S B) (s : S) :
  bind m k s = k (fst (m s)) (snd (m s)).
Proof. unfold bind. destruct (m s); reflexivity. Qed.

Lemma ret_run (a : A) (s : S) : ret a s = (a, s).
Proof. reflexivity. Qed.

End MonadFacts.

(** ** Computations that only append to the trace *)

Lemma appends_ret {A : Type} (a : A) : appends (ret a).
Proof. intros t. unfold ret. simpl. now rewrite app_nil_r. Qed.

Lemma appends_emit (e : event) : appends (emit e).
Proof. intros t. reflexivity. Qed.

Lemma appends_printf (format : string) (args : list Z) :
  appends (printf format args).
Proof. apply appends_emit. Qed.

Lemma appends_bind {A B : Type} (m : M trace A) (k : A -> M trace B) :
  appends m -> (forall a, appends (k a)) -> appends (bind m k).
Proof.
  intros Hm Hk t. rewrite !bind_run.
  rewrite (Hm t). cbn [fst snd].
  rewrite (Hk (fst (m [])) (t ++ snd (m []))).
  rewrite (Hk (fst (m [])) (snd (m []))).
  cbn [fst snd]. now rewrite app_assoc.
Qed.

Lemma appends_if {A : Type} (b : bool) (m1 m2 : M trace A) :
  appends m1 -> appends m2 -> appends (if b then m1 else m2).
Proof. destruct b; auto. Qed.

Lemma appends_for_loop (n : nat) (i : Z) (body : Z -> M trace unit) :
  (forall j, appends (body j)) -> appends (for_loop n i body).
Proof.
  intros Hbody. revert i.
  induction n as [|n IH]; intros i; simpl.
  - apply appends_ret.
  - apply appends_bind; auto.
Qed.

Create HintDb appends_db.
#[export] Hint Resolve appends_ret appends_emit appends_printf appends_bind
  appends_if appends_for_loop : appends_db.

(** The result does not depend on the trace the run starts from. *)
Lemma appends_result {A : Type} (m : M trace A) (t : trace) :
  appends m -> fst (m t) = fst (m []).
Proof. intros H. now rewrite (H t). Qed.

(* ================================================================== *)
(** * Bytes and memory: basic facts *)
(* ================================================================== *)

Lemma byte_eqb_eq (x y : byte) : Byte.eqb x y = true <-> x = y.
Proof.
  split.
  - intros H. destruct (byte_eq_dec x y) as [E|N]; [exact E|].
    apply Byte.byte_dec_bl in H. exact H.
  - intros ->. apply Byte.byte_dec_lb. reflexivity.
Qed.

Lemma uint8_inj (x y : byte) : uint8 x = uint8 y -> x = y.
Proof.
  unfold uint8. intros H. apply N2Z.inj in H.
  assert (E : Byte.of_N (Byte.to_N x) = Byte.of_N (Byte.to_N y)) by now rewrite H.
  rewrite !Byte.of_to_N in E. now inversion E.
Qed.

Lemma memcmp_0_iff (n : nat) :
  forall a b, memcmp a b n = 0 <-> firstn n a = firstn n b.
Proof.
  induction n as [|n IH]; intros a b; simpl.
  - split; reflexivity.
  - destruct a as [|x a], b as [|y b]; try (split; [discriminate|discriminate]).
    + split; reflexivity.
    + destruct (Byte.eqb x y) eqn:E.
      * apply byte_eqb_eq in E. subst y. rewrite IH.
        split; [intros ->; reflexivity | intros H; now inversion H].
      * split.
        -- intros H. assert (x = y) by (apply uint8_inj; lia). subst y.
           assert (Byte.eqb x x = true) by now apply byte_eqb_eq.
           congruence.
        -- intros H. inversion H. subst y.
           assert (Byte.eqb x x = true) by now apply byte_eqb_eq.
           congruence.
Qed.

Lemma load_bytes_length (m : memory) (addr n : Z) :
  List.length (load_bytes m addr n) = Z.to_nat n.
Proof. unfold load_bytes. now rewrite length_map, length_seq. Qed.

Lemma firstn_whole {A : Type} (l : list A) (n : nat) :
  List.length l = n -> firstn n l = l.
Proof. intros <-. apply firstn_all. Qed.

(* ================================================================== *)
(** * The bootloader: how each function runs *)
(* ================================================================== *)

Ltac run_step :=
  repeat (rewrite bind_run; cbn beta);
  unfold printf, emit, ret; cbn [fst snd].

Section BootloaderFacts.

Context {oqs : LibOQS}.

Lemma sha256_hash_appends (data : list byte) : appends (sha256_hash data).
Proof. unfold sha256_hash. auto with appends_db. Qed.

Lemma kyber1024_verify_signature_appends
    (message : list byte) (message_len : Z) (signature public_key : list byte) :
  appends (kyber1024_verify_signature message message_len signature public_key).
Proof.
  unfold kyber1024_verify_signature.
  apply appends_bind; [auto with appends_db|intros _].
  destruct (OQS_SIG_new OQS_SIG_alg_dilithium_5); auto 10 with appends_db.
Qed.

Lemma kyber1024_verify_image_appends
    (m : memory) (image image_size signature : Z) (public_key : list byte) :
  appends (kyber1024_verify_image m image image_size signature public_key).
Proof.
  unfold kyber1024_verify_image.
  repeat (apply appends_if; [auto with appends_db|]).
  apply appends_bind; [apply sha256_hash_appends|intros computed_hash].
  apply appends_if; [auto 20 with appends_db|].
  apply appends_bind; [auto with appends_db|intros _].
  apply appends_bind; [apply kyber1024_verify_signature_appends|intros r].
  auto with appends_db.
Qed.

Lemma kyber1024_verify_kernel_appends (m : memory) (kernel_addr kernel_size : Z) :
  appends (kyber1024_verify_kernel m kernel_addr kernel_size).
Proof.
  unfold kyber1024_verify_kernel.
  do 3 (apply appends_bind; [auto with appends_db|intros _]).
  apply appends_bind; [apply kyber1024_verify_image_appends|intros r].
  auto with appends_db.
Qed.

Lemma kyber1024_verify_initramfs_appends
    (m : memory) (initramfs_addr initramfs_size : Z) :
  appends (kyber1024_verify_initramfs m initramfs_addr initramfs_size).
Proof.
  unfold kyber1024_verify_initramfs.
  do 3 (apply appends_bind; [auto with appends_db|intros _]).
  apply appends_bind; [apply kyber1024_verify_image_appends|intros r].
  auto with appends_db.
Qed.

(** The status [kyber1024_verify_signature] returns. *)
Lemma kyber1024_verify_signature_result
    (message : list byte) (message_len : Z) (signature public_key : list byte)
    (t : trace) :
  fst (kyber1024_verify_signature message message_len signature public_key t) =
  match OQS_SIG_new OQS_SIG_alg_dilithium_5 with
  | None => -1
  | Some sig =>
      if OQS_STATUS_eqb
           (OQS_SIG_verify sig message message_len signature
              (length_signature sig) public_key) OQS_SUCCESS
      then 0 else -1
  end.
Proof.
  unfold kyber1024_verify_signature. rewrite bind_run. cbn beta.
  destruct (OQS_SIG_new OQS_SIG_alg_dilithium_5) as [sig|].
  - destruct (OQS_STATUS_eqb _ _); run_step; reflexivity.
  - run_step. reflexivity.
Qed.

Lemma kyber1024_verify_signature_0_or_minus_1
    (message : list byte) (message_len : Z) (signature public_key : list byte)
    (t : trace) :
  let r := fst (kyber1024_verify_signature message message_len signature
                  public_key t) in
  r = 0 \/ r = -1.
Proof.
  cbv zeta. rewrite kyber1024_verify_signature_result.
  destruct (OQS_SIG_new _); [destruct (OQS_STATUS_eqb _ _)|]; auto.
Qed.

(** The three header checks, one outcome each. *)
Lemma verify_image_magic_fails
    (m : memory) (image image_size signature : Z) (public_key : list byte)
    (t : trace) :
  sig_magic m signature <> QWAMOS_SIG_MAGIC ->
  kyber1024_verify_image m image image_size signature public_key t =
  (-1, t ++ [Printf "ERROR: Invalid signature magic: 0x%08x\n"
               [sig_magic m signature]]).
Proof.
  intros H. unfold kyber1024_verify_image.
  apply Z.eqb_neq in H. rewrite H. reflexivity.
Qed.

Lemma verify_image_version_fails
    (m : memory) (image image_size signature : Z) (public_key : list byte)
    (t : trace) :
  sig_magic m signature = QWAMOS_SIG_MAGIC ->
  sig_version m signature <> QWAMOS_SIG_VERSION ->
  kyber1024_verify_image m image image_size signature public_key t =
  (-1, t ++ [Printf "ERROR: Unsupported signature version: %d\n"
               [sig_version m signature]]).
Proof.
  intros Hm Hv. unfold kyber1024_verify_image.
  apply Z.eqb_eq in Hm. apply Z.eqb_neq in Hv. rewrite Hm, Hv. reflexivity.
Qed.

Lemma verify_image_size_fails
    (m : memory) (image image_size signature : Z) (public_key : list byte)
    (t : trace) :
  sig_magic m signature = QWAMOS_SIG_MAGIC ->
  sig_version m signature = QWAMOS_SIG_VERSION ->
  sig_image_size m signature <> image_size ->
  kyber1024_verify_image m image image_size signature public_key t =
  (-1, t ++ [Printf "ERROR: Image size mismatch: expected %u, got %zu\n"
               [sig_image_size m signature; image_size]]).
Proof.
  intros Hm Hv Hs. unfold kyber1024_verify_image.
  apply Z.eqb_eq in Hm, Hv. apply Z.eqb_neq in Hs. rewrite Hm, Hv, Hs.
  reflexivity.
Qed.

(** The status [kyber1024_verify_image] returns, check by check. *)
Lemma kyber1024_verify_image_result
    (m : memory) (image image_size signature : Z) (public_key : list byte)
    (t : trace) :
  fst (kyber1024_verify_image m image image_size signature public_key t) =
  if negb (sig_magic m signature =? QWAMOS_SIG_MAGIC) then -1
  else if negb (sig_version m signature =? QWAMOS_SIG_VERSION) then -1
  else if negb (sig_image_size m signature =? image_size) then -1
  else if negb (memcmp (OQS_SHA2_sha256 (load_bytes m image image_size))
                  (sig_image_hash m signature) 32 =? 0) then -1
  else if negb (fst (kyber1024_verify_signature
                       (OQS_SHA2_sha256 (load_bytes m image image_size)) 32
                       (sig_kyber_signature m signature) public_key []) =? 0)
       then -1
  else 0.
Proof.
  unfold kyber1024_verify_image.
  destruct (negb (sig_magic m signature =? QWAMOS_SIG_MAGIC)); [reflexivity|].
  destruct (negb (sig_version m signature =? QWAMOS_SIG_VERSION)); [reflexivity|].
  destruct (negb (sig_image_size m signature =? image_size)); [reflexivity|].
  rewrite bind_run. unfold sha256_hash at 1 2. rewrite !bind_run. cbn beta.
  unfold ret at 1 2. cbn [fst snd].
  destruct (negb (memcmp _ _ 32 =? 0)).
  - run_step. reflexivity.
  - rewrite bind_run. cbn beta. rewrite bind_run.
    rewrite (appends_result _ _ (kyber1024_verify_signature_appends _ _ _ _)).
    destruct (negb (_ =? 0)); run_step; reflexivity.
Qed.

End BootloaderFacts.

Lemma liboqs_calls_app (t1 t2 : trace) :
  liboqs_calls (t1 ++ t2) = liboqs_calls t1 ++ liboqs_calls t2.
Proof.
  induction t1 as [|e t1 IH]; simpl; [reflexivity|].
  destruct e; simpl; now rewrite IH.
Qed.

(* ================================================================== *)
(** * Properties of [kyber1024_verify_image] *)
(* ================================================================== *)

Section ImageVerification.

Context {oqs : LibOQS}.

(** C1.  [kyber1024_verify_image] returns 0 exactly when the five
    conditions hold together: the record's magic is [QWAMOS_SIG_MAGIC],
    its version is [QWAMOS_SIG_VERSION] (1), its image_size is the size
    the caller passed, the SHA-256 digest of the payload is the record's
    image_hash, and liboqs accepts the record's signature over that digest
    under the public key (the scheme could be set up and [OQS_SIG_verify]
    answered [OQS_SUCCESS]).  In every other case it returns -1. *)
Theorem kyber1024_verify_image_success_iff
    (m : memory) (image image_size signature : Z) (public_key : list byte)
    (t : trace) :
  let r := fst (kyber1024_verify_image m image image_size signature
                  public_key t) in
  let digest := OQS_SHA2_sha256 (load_bytes m image image_size) in
  (r = 0 <->
     sig_magic m signature = QWAMOS_SIG_MAGIC /\
     sig_version m signature = QWAMOS_SIG_VERSION /\
     sig_image_size m signature = image_size /\
     digest = sig_image_hash m signature /\
     exists sig,
       OQS_SIG_new OQS_SIG_alg_dilithium_5 = Some sig /\
       OQS_SIG_verify sig digest 32 (sig_kyber_signature m signature)
         (length_signature sig) public_key = OQS_SUCCESS)
  /\ (r = 0 \/ r = -1).
Proof.
  cbv zeta. rewrite kyber1024_verify_image_result.
  rewrite kyber1024_verify_signature_result.
  set (digest := OQS_SHA2_sha256 (load_bytes m image image_size)).
  assert (Hhash : memcmp digest (sig_image_hash m signature) 32 = 0 <->
                  digest = sig_image_hash m signature).
  { rewrite memcmp_0_iff.
    rewrite (firstn_whole digest 32) by apply OQS_SHA2_sha256_length.
    rewrite (firstn_whole (sig_image_hash m signature) 32)
      by (unfold sig_image_hash; now rewrite load_bytes_length).
    reflexivity. }
  destruct (sig_magic m signature =? QWAMOS_SIG_MAGIC) eqn:Emagic; cbn [negb];
    [apply Z.eqb_eq in Emagic | apply Z.eqb_neq in Emagic];
    [|split; [split; [discriminate | intros (? & _); contradiction] | auto]].
  destruct (sig_version m signature =? QWAMOS_SIG_VERSION) eqn:Eversion;
    cbn [negb];
    [apply Z.eqb_eq in Eversion | apply Z.eqb_neq in Eversion];
    [|split; [split; [discriminate | intros (_ & ? & _); contradiction] | auto]].
  destruct (sig_image_size m signature =? image_size) eqn:Esize; cbn [negb];
    [apply Z.eqb_eq in Esize | apply Z.eqb_neq in Esize];
    [|split; [split; [discriminate | intros (_ & _ & ? & _); contradiction]
             | auto]].
  destruct (memcmp digest (sig_image_hash m signature) 32 =? 0) eqn:Ecmp;
    cbn [negb];
    [apply Z.eqb_eq in Ecmp | apply Z.eqb_neq in Ecmp];
    [|split; [split; [discriminate
                     | intros (_ & _ & _ & ? & _); apply Hhash in H;
                       contradiction]
             | auto]].
  apply Hhash in Ecmp.
  destruct (OQS_SIG_new OQS_SIG_alg_dilithium_5) as [sig|].
  - destruct (OQS_SIG_verify sig digest 32 (sig_kyber_signature m signature)
                (length_signature sig) public_key) eqn:Everify;
      cbn [OQS_STATUS_eqb].
    + split; [split; [discriminate|] | auto].
      intros (_ & _ & _ & _ & sig' & Hnew & Hver).
      inversion Hnew; subst sig'. congruence.
    + split; [split; [intros _|reflexivity] | auto].
      repeat (split; [assumption|]). exists sig. split; [reflexivity|assumption].
    + split; [split; [discriminate|] | auto].
      intros (_ & _ & _ & _ & sig' & Hnew & Hver).
      inversion Hnew; subst sig'. congruence.
  - split; [split; [discriminate|] | auto].
    intros (_ & _ & _ & _ & sig' & Hnew & _). discriminate.
Qed.

End ImageVerification.

(* ================================================================== *)
(** * The header checks: what is returned, what is run *)
(* ================================================================== *)

(** C3, as the claim states it, fails: the value returned for a wrong
    magic is not distinct from the one returned for another failure.  The
    record of [image_bad_magic] has a wrong magic, the record of
    [image_bad_version] has the right magic and an unsupported version,
    and [kyber1024_verify_image] returns the same value for both. *)
Lemma invalid_magic_status_shared_with_version :
  sig_magic image_bad_magic 4 <> QWAMOS_SIG_MAGIC /\
  sig_magic image_bad_version 4 = QWAMOS_SIG_MAGIC /\
  sig_version image_bad_version 4 <> QWAMOS_SIG_VERSION /\
  fst (@kyber1024_verify_image oqs_accepting image_bad_magic 0 4 4
         qwamos_public_key []) =
  fst (@kyber1024_verify_image oqs_accepting image_bad_version 0 4 4
         qwamos_public_key []).
Proof.
  repeat split; vm_compute; congruence.
Qed.

(** C3, amended.  When the record's magic is not [QWAMOS_SIG_MAGIC],
    [kyber1024_verify_image] returns -1, the one status every failure
    returns; what tells the failure apart is the single line it prints,
    "ERROR: Invalid signature magic: ...", and nothing else happens: no
    call into liboqs is made, so the payload is not hashed and the
    signature is not checked. *)
Theorem invalid_magic_fails_before_any_crypto
    {oqs : LibOQS}
    (m : memory) (image image_size signature : Z) (public_key : list byte)
    (t : trace) :
  sig_magic m signature <> QWAMOS_SIG_MAGIC ->
  exists out,
    kyber1024_verify_image m image image_size signature public_key t
      = (-1, t ++ out) /\
    out = [Printf "ERROR: Invalid signature magic: 0x%08x\n"
             [sig_magic m signature]] /\
    liboqs_calls out = [].
Proof.
  intros Hmagic. eexists. split; [|split; [reflexivity|]].
  - now apply verify_image_magic_fails.
  - reflexivity.
Qed.

Lemma invalid_magic_fails_before_any_crypto_witness :
  sig_magic image_bad_magic 4 <> QWAMOS_SIG_MAGIC /\
  exists out,
    @kyber1024_verify_image oqs_accepting image_bad_magic 0 4 4
      qwamos_public_key [] = (-1, [] ++ out) /\
    out = [Printf "ERROR: Invalid signature magic: 0x%08x\n"
             [sig_magic image_bad_magic 4]] /\
    liboqs_calls out = [].
Proof.
  assert (H : sig_magic image_bad_magic 4 <> QWAMOS_SIG_MAGIC)
    by (vm_compute; congruence).
  split; [exact H|].
  exact (@invalid_magic_fails_before_any_crypto oqs_accepting
           image_bad_magic 0 4 4 qwamos_public_key [] H).
Defined.

(** C5, as the claim states it, fails: the value returned for a size
    mismatch is not distinct from the one returned for another failure.
    The record of [image_bad_size] has the right magic and version and
    declares 3 bytes for a payload of 4; [image_well_formed] passes every
    header check and the hash comparison and is refused at the signature
    check by [oqs_rejecting].  [kyber1024_verify_image] returns the same
    value for both. *)
Lemma size_mismatch_status_shared_with_signature :
  sig_magic image_bad_size 4 = QWAMOS_SIG_MAGIC /\
  sig_version image_bad_size 4 = QWAMOS_SIG_VERSION /\
  sig_image_size image_bad_size 4 <> 4 /\
  sig_image_size image_well_formed 4 = 4 /\
  fst (@kyber1024_verify_image oqs_rejecting image_bad_size 0 4 4
         qwamos_public_key []) =
  fst (@kyber1024_verify_image oqs_rejecting image_well_formed 0 4 4
         qwamos_public_key []).
Proof.
  repeat split; vm_compute; congruence.
Qed.

(** C5, amended.  When the record's magic and version are valid and its
    image_size differs from the size the caller passed,
    [kyber1024_verify_image] returns -1, the one status every failure
    returns; what tells the failure apart is the single line it prints,
    "ERROR: Image size mismatch: ...", and it returns before any call into
    liboqs: the payload digest is not computed. *)
Theorem size_mismatch_fails_before_hashing
    {oqs : LibOQS}
    (m : memory) (image image_size signature : Z) (public_key : list byte)
    (t : trace) :
  sig_magic m signature = QWAMOS_SIG_MAGIC ->
  sig_version m signature = QWAMOS_SIG_VERSION ->
  sig_image_size m signature <> image_size ->
  exists out,
    kyber1024_verify_image m image image_size signature public_key t
      = (-1, t ++ out) /\
    out = [Printf "ERROR: Image size mismatch: expected %u, got %zu\n"
             [sig_image_size m signature; image_size]] /\
    ~ In (Call fn_OQS_SHA2_sha256) out.
Proof.
  intros Hmagic Hversion Hsize. eexists. split; [|split; [reflexivity|]].
  - now apply verify_image_size_fails.
  - intros [H|[]]. discriminate.
Qed.

Lemma size_mismatch_fails_before_hashing_witness :
  exists out,
    @kyber1024_verify_image oqs_accepting image_bad_size 0 4 4
      qwamos_public_key [] = (-1, [] ++ out) /\
    out = [Printf "ERROR: Image size mismatch: expected %u, got %zu\n"
             [sig_image_size image_bad_size 4; 4]] /\
    ~ In (Call fn_OQS_SHA2_sha256) out.
Proof.
  apply (@size_mismatch_fails_before_hashing oqs_accepting
           image_bad_size 0 4 4 qwamos_public_key []).
  - vm_compute. reflexivity.
  - vm_compute. reflexivity.
  - vm_compute. congruence.
Defined.

(* ================================================================== *)
(** * Locating the record: [kyber1024_verify_kernel] *)
(* ================================================================== *)

Section KernelFacts.

Context {oqs : LibOQS}.

Lemma kyber1024_verify_image_0_or_minus_1
    (m : memory) (image image_size signature : Z) (public_key : list byte)
    (t : trace) :
  let r := fst (kyber1024_verify_image m image image_size signature
                  public_key t) in
  r = 0 \/ r = -1.
Proof.
  cbv zeta. rewrite kyber1024_verify_image_result.
  repeat match goal with
         | |- context [if ?b then _ else _] => destruct b; auto
         end.
Qed.

(** [kyber1024_verify_kernel] returns what [kyber1024_verify_image]
    returns for the record at [kernel_addr + kernel_size]. *)
Lemma kyber1024_verify_kernel_result (m : memory) (kernel_addr kernel_size : Z)
    (t : trace) :
  fst (kyber1024_verify_kernel m kernel_addr kernel_size t) =
  fst (kyber1024_verify_image m kernel_addr kernel_size
         (kernel_addr + kernel_size) qwamos_public_key []).
Proof.
  unfold kyber1024_verify_kernel. cbv zeta.
  rewrite !bind_run. cbn beta.
  rewrite (appends_result _ _ (kyber1024_verify_image_appends _ _ _ _ _)).
  destruct (kyber1024_verify_image_0_or_minus_1 m kernel_addr kernel_size
              (kernel_addr + kernel_size) qwamos_public_key []) as [E|E];
    cbv zeta in E; rewrite E; run_step; reflexivity.
Qed.

Lemma kyber1024_verify_initramfs_result
    (m : memory) (initramfs_addr initramfs_size : Z) (t : trace) :
  fst (kyber1024_verify_initramfs m initramfs_addr initramfs_size t) =
  fst (kyber1024_verify_image m initramfs_addr initramfs_size
         (initramfs_addr + initramfs_size) qwamos_public_key []).
Proof.
  unfold kyber1024_verify_initramfs. cbv zeta.
  rewrite !bind_run. cbn beta.
  rewrite (appends_result _ _ (kyber1024_verify_image_appends _ _ _ _ _)).
  destruct (kyber1024_verify_image_0_or_minus_1 m initramfs_addr initramfs_size
              (initramfs_addr + initramfs_size) qwamos_public_key []) as [E|E];
    cbv zeta in E; rewrite E; run_step; reflexivity.
Qed.

End KernelFacts.

(** C4, as the claim states it, fails: no check on the number of trailing
    bytes precedes the field reads.  Take an image that is four payload
    bytes at addresses 0..3 and nothing more, so that fewer than
    [sizeof_qwamos_signature] bytes (none at all) trail the payload.
    [image_bad_magic] and [image_magic_only] hold the same four bytes
    there and differ only beyond them.  [kyber1024_verify_kernel] reads
    the magic, and then the version, from beyond the image: on the first
    memory it reports the magic 0, on the second it lets the magic pass
    and reports the version 0. *)
Lemma verify_kernel_reads_fields_without_bounds_check :
  (forall a, 0 <= a < 4 -> image_bad_magic a = image_magic_only a) /\
  0 < sizeof_qwamos_signature /\
  snd (@kyber1024_verify_kernel oqs_accepting image_bad_magic 0 4 []) =
    [Printf "=== QWAMOS Secure Boot: Kernel Verification ===\n" [];
     Printf "Kernel address: 0x%lx\n" [0];
     Printf "Kernel size: %zu bytes\n" [4];
     Printf "ERROR: Invalid signature magic: 0x%08x\n" [0];
     Printf "CRITICAL: Kernel signature verification FAILED!\n" [];
     Printf "Boot process halted for security.\n" []] /\
  snd (@kyber1024_verify_kernel oqs_accepting image_magic_only 0 4 []) =
    [Printf "=== QWAMOS Secure Boot: Kernel Verification ===\n" [];
     Printf "Kernel address: 0x%lx\n" [0];
     Printf "Kernel size: %zu bytes\n" [4];
     Printf "ERROR: Unsupported signature version: %d\n" [0];
     Printf "CRITICAL: Kernel signature verification FAILED!\n" [];
     Printf "Boot process halted for security.\n" []].
Proof.
  split; [|split; [|split]].
  - intros a Ha.
    assert (E : a = 0 \/ a = 1 \/ a = 2 \/ a = 3) by lia.
    destruct E as [->|[->|[->| ->]]]; vm_compute; reflexivity.
  - vm_compute. reflexivity.
  - vm_compute. reflexivity.
  - vm_compute. reflexivity.
Qed.

(** C4, amended.  [kyber1024_verify_kernel] makes no check that a full
    record trails the payload: it takes the record to start at
    [kernel_addr + kernel_size] and returns what [kyber1024_verify_image]
    returns for it.  [kyber1024_verify_image] then checks magic, version
    and image_size in that order, each one only when the earlier ones
    passed: a wrong magic is reported whatever version and image_size
    hold, a wrong version whatever image_size holds. *)
Theorem record_fields_checked_in_order
    {oqs : LibOQS}
    (m : memory) (kernel_addr kernel_size : Z) (t : trace) :
  let signature := kernel_addr + kernel_size in
  let outcome :=
    kyber1024_verify_image m kernel_addr kernel_size signature
      qwamos_public_key t in
  fst (kyber1024_verify_kernel m kernel_addr kernel_size t) = fst (outcome) /\
  (sig_magic m signature <> QWAMOS_SIG_MAGIC ->
   outcome =
     (-1, t ++ [Printf "ERROR: Invalid signature magic: 0x%08x\n"
                  [sig_magic m signature]])) /\
  (sig_magic m signature = QWAMOS_SIG_MAGIC ->
   sig_version m signature <> QWAMOS_SIG_VERSION ->
   outcome =
     (-1, t ++ [Printf "ERROR: Unsupported signature version: %d\n"
                  [sig_version m signature]])) /\
  (sig_magic m signature = QWAMOS_SIG_MAGIC ->
   sig_version m signature = QWAMOS_SIG_VERSION ->
   sig_image_size m signature <> kernel_size ->
   outcome =
     (-1, t ++ [Printf "ERROR: Image size mismatch: expected %u, got %zu\n"
                  [sig_image_size m signature; kernel_size]])).
Proof.
  cbv zeta. split; [|split; [|split]].
  - rewrite kyber1024_verify_kernel_result.
    now rewrite (appends_result _ t (kyber1024_verify_image_appends _ _ _ _ _)).
  - apply verify_image_magic_fails.
  - apply verify_image_version_fails.
  - apply verify_image_size_fails.
Qed.

Lemma record_fields_checked_in_order_witness :
  @kyber1024_verify_image oqs_accepting image_bad_magic 0 4 4
    qwamos_public_key [] =
    (-1, [Printf "ERROR: Invalid signature magic: 0x%08x\n" [0]]) /\
  @kyber1024_verify_image oqs_accepting image_bad_version 0 4 4
    qwamos_public_key [] =
    (-1, [Printf "ERROR: Unsupported signature version: %d\n" [2]]) /\
  @kyber1024_verify_image oqs_accepting image_bad_size 0 4 4
    qwamos_public_key [] =
    (-1, [Printf "ERROR: Image size mismatch: expected %u, got %zu\n" [3; 4]]).
Proof.
  split; [|split].
  - apply (@record_fields_checked_in_order oqs_accepting image_bad_magic 0 4 []).
    vm_compute. congruence.
  - apply (@record_fields_checked_in_order oqs_accepting image_bad_version 0 4 []).
    + vm_compute. reflexivity.
    + vm_compute. congruence.
  - apply (@record_fields_checked_in_order oqs_accepting image_bad_size 0 4 []).
    + vm_compute. reflexivity.
    + vm_compute. reflexivity.
    + vm_compute. congruence.
Defined.

(* ================================================================== *)
(** * The signature check *)
(* ================================================================== *)

Section SignatureFacts.

Context {oqs : LibOQS}.

Lemma sha256_hash_run (data : list byte) (t : trace) :
  sha256_hash data t = (OQS_SHA2_sha256 data, t ++ [Call fn_OQS_SHA2_sha256]).
Proof. reflexivity. Qed.

(** How [kyber1024_verify_image] runs once the three header checks and
    the hash comparison have passed. *)
Lemma verify_image_after_hash
    (m : memory) (image image_size signature : Z) (public_key : list byte)
    (t : trace) :
  sig_magic m signature = QWAMOS_SIG_MAGIC ->
  sig_version m signature = QWAMOS_SIG_VERSION ->
  sig_image_size m signature = image_size ->
  OQS_SHA2_sha256 (load_bytes m image image_size) = sig_image_hash m signature ->
  let digest := OQS_SHA2_sha256 (load_bytes m image image_size) in
  let check :=
    kyber1024_verify_signature digest 32 (sig_kyber_signature m signature)
      public_key [] in
  kyber1024_verify_image m image image_size signature public_key t =
  if negb (fst check =? 0) then
    (-1, t ++ [Call fn_OQS_SHA2_sha256;
               Printf "Verifying Kyber-1024 signature...\n" []]
           ++ snd check
           ++ [Printf "ERROR: Kyber-1024 signature verification failed!\n" []])
  else
    (0, t ++ [Call fn_OQS_SHA2_sha256;
              Printf "Verifying Kyber-1024 signature...\n" []]
          ++ snd check
          ++ [Printf "SUCCESS: Image signature verified (Kyber-1024)\n" []]).
Proof.
  intros Hmagic Hversion Hsize Hhash. cbv zeta.
  unfold kyber1024_verify_image.
  apply Z.eqb_eq in Hmagic, Hversion, Hsize.
  rewrite Hmagic, Hversion, Hsize. cbn [negb].
  rewrite bind_run, sha256_hash_run. cbn [fst snd].
  assert (Hcmp : memcmp (OQS_SHA2_sha256 (load_bytes m image image_size))
                   (sig_image_hash m signature) 32 = 0)
    by (apply memcmp_0_iff; now rewrite Hhash).
  rewrite Hcmp. cbn [Z.eqb negb].
  rewrite bind_run. cbn beta. unfold printf at 1, emit at 1. cbn [fst snd].
  rewrite bind_run.
  rewrite (kyber1024_verify_signature_appends _ _ _ _
             ((t ++ [Call fn_OQS_SHA2_sha256]) ++
              [Printf "Verifying Kyber-1024 signature...\n" []])).
  cbn [fst snd].
  destruct (negb (_ =? 0)); run_step;
    rewrite <- !app_assoc; reflexivity.
Qed.

End SignatureFacts.

(** C6.  [kyber1024_verify_signature] always returns, with 0 or -1, and
    fails closed: it returns 0 only when the scheme could be set up and
    [OQS_SIG_verify] answered [OQS_SUCCESS]; when [OQS_SIG_new] returns
    NULL, or [OQS_SIG_verify] answers anything else, it returns -1.  The
    caller treats every such rejection alike: once the header checks and
    the hash comparison have passed, any non-zero status makes
    [kyber1024_verify_image] print the one line "ERROR: Kyber-1024
    signature verification failed!" and return -1. *)
Theorem signature_check_total_and_fail_closed {oqs : LibOQS} :
  (forall (message : list byte) (message_len : Z)
          (signature public_key : list byte) (t : trace),
     let r := fst (kyber1024_verify_signature message message_len signature
                     public_key t) in
     (r = 0 \/ r = -1) /\
     (r = 0 <->
      exists sig,
        OQS_SIG_new OQS_SIG_alg_dilithium_5 = Some sig /\
        OQS_SIG_verify sig message message_len signature
          (length_signature sig) public_key = OQS_SUCCESS)) /\
  (forall (m : memory) (image image_size signature : Z)
          (public_key : list byte) (t : trace),
     sig_magic m signature = QWAMOS_SIG_MAGIC ->
     sig_version m signature = QWAMOS_SIG_VERSION ->
     sig_image_size m signature = image_size ->
     OQS_SHA2_sha256 (load_bytes m image image_size)
       = sig_image_hash m signature ->
     fst (kyber1024_verify_signature
            (OQS_SHA2_sha256 (load_bytes m image image_size)) 32
            (sig_kyber_signature m signature) public_key []) <> 0 ->
     exists out,
       kyber1024_verify_image m image image_size signature public_key t =
       (-1, t ++ out ++
              [Printf "ERROR: Kyber-1024 signature verification failed!\n" []])).
Proof.
  split.
  - intros message message_len signature public_key t. cbv zeta.
    split; [apply kyber1024_verify_signature_0_or_minus_1|].
    rewrite kyber1024_verify_signature_result.
    destruct (OQS_SIG_new OQS_SIG_alg_dilithium_5) as [sig|].
    + destruct (OQS_SIG_verify sig message message_len signature
                  (length_signature sig) public_key) eqn:Everify;
        cbn [OQS_STATUS_eqb]; split;
        try discriminate; try reflexivity;
        try (intros (sig' & Hnew & Hver); inversion Hnew; subst sig';
             congruence).
      intros _. exists sig. auto.
    + split; [discriminate|]. intros (sig' & Hnew & _). discriminate.
  - intros m image image_size signature public_key t
           Hmagic Hversion Hsize Hhash Hreject.
    rewrite (verify_image_after_hash m image image_size signature public_key t
               Hmagic Hversion Hsize Hhash).
    cbv zeta. apply Z.eqb_neq in Hreject. rewrite Hreject. cbn [negb].
    eexists. do 2 f_equal. apply app_assoc.
Qed.

(** The two ways the scheme can refuse, on the same well-formed image:
    [OQS_SIG_new] returns NULL, and [OQS_SIG_verify] answers
    [OQS_ERROR]. *)
Lemma signature_check_total_and_fail_closed_witness :
  (exists out,
     @kyber1024_verify_image oqs_unavailable image_well_formed 0 4 4
       qwamos_public_key [] =
     (-1, [] ++ out ++
            [Printf "ERROR: Kyber-1024 signature verification failed!\n" []]))
  /\
  (exists out,
     @kyber1024_verify_image oqs_rejecting image_well_formed 0 4 4
       qwamos_public_key [] =
     (-1, [] ++ out ++
            [Printf "ERROR: Kyber-1024 signature verification failed!\n" []])).
Proof.
  split.
  - apply (proj2 (@signature_check_total_and_fail_closed oqs_unavailable)
             image_well_formed 0 4 4 qwamos_public_key []).
    + vm_compute. reflexivity.
    + vm_compute. reflexivity.
    + vm_compute. reflexivity.
    + vm_compute. reflexivity.
    + vm_compute. congruence.
  - apply (proj2 (@signature_check_total_and_fail_closed oqs_rejecting)
             image_well_formed 0 4 4 qwamos_public_key []).
    + vm_compute. reflexivity.
    + vm_compute. reflexivity.
    + vm_compute. reflexivity.
    + vm_compute. reflexivity.
    + vm_compute. congruence.
Defined.

(* ================================================================== *)
(** * Kernel and initramfs *)
(* ================================================================== *)

Section KernelInitramfs.

Context {oqs : LibOQS}.

Lemma kyber1024_verify_kernel_run (m : memory) (kernel_addr kernel_size : Z)
    (t : trace) :
  let check :=
    kyber1024_verify_image m kernel_addr kernel_size
      (kernel_addr + kernel_size) qwamos_public_key [] in
  snd (kyber1024_verify_kernel m kernel_addr kernel_size t) =
  t ++ [Printf "=== QWAMOS Secure Boot: Kernel Verification ===\n" [];
        Printf "Kernel address: 0x%lx\n" [kernel_addr];
        Printf "Kernel size: %zu bytes\n" [kernel_size]]
    ++ snd check
    ++ (if negb (fst check =? 0)
        then [Printf "CRITICAL: Kernel signature verification FAILED!\n" [];
              Printf "Boot process halted for security.\n" []]
        else [Printf "Kernel signature verified successfully.\n" []]).
Proof.
  cbv zeta. unfold kyber1024_verify_kernel. cbv zeta.
  rewrite !bind_run. cbn beta.
  unfold printf, emit. cbn [fst snd].
  rewrite (kyber1024_verify_image_appends m kernel_addr kernel_size
             (kernel_addr + kernel_size) qwamos_public_key
             (((t ++ _) ++ _) ++ _)).
  cbn [fst snd].
  destruct (negb (_ =? 0)); repeat (rewrite bind_run; cbn beta);
    unfold ret; cbn [fst snd]; rewrite <- !app_assoc; reflexivity.
Qed.

Lemma kyber1024_verify_initramfs_run
    (m : memory) (initramfs_addr initramfs_size : Z) (t : trace) :
  let check :=
    kyber1024_verify_image m initramfs_addr initramfs_size
      (initramfs_addr + initramfs_size) qwamos_public_key [] in
  snd (kyber1024_verify_initramfs m initramfs_addr initramfs_size t) =
  t ++ [Printf "=== QWAMOS Secure Boot: Initramfs Verification ===\n" [];
        Printf "Initramfs address: 0x%lx\n" [initramfs_addr];
        Printf "Initramfs size: %zu bytes\n" [initramfs_size]]
    ++ snd check
    ++ (if negb (fst check =? 0)
        then [Printf "CRITICAL: Initramfs signature verification FAILED!\n" [];
              Printf "Boot process halted for security.\n" []]
        else [Printf "Initramfs signature verified successfully.\n" []]).
Proof.
  cbv zeta. unfold kyber1024_verify_initramfs. cbv zeta.
  rewrite !bind_run. cbn beta.
  unfold printf, emit. cbn [fst snd].
  rewrite (kyber1024_verify_image_appends m initramfs_addr initramfs_size
             (initramfs_addr + initramfs_size) qwamos_public_key
             (((t ++ _) ++ _) ++ _)).
  cbn [fst snd].
  destruct (negb (_ =? 0)); repeat (rewrite bind_run; cbn beta);
    unfold ret; cbn [fst snd]; rewrite <- !app_assoc; reflexivity.
Qed.

End KernelInitramfs.

(** C10.  Kernel and initramfs verification are the same computation.
    Given the same memory, address and size, [kyber1024_verify_kernel] and
    [kyber1024_verify_initramfs] return the same status, whatever was
    printed before either call, and make the same calls into liboqs in
    the same order: both take the record at the end of the payload and
    hand it to [kyber1024_verify_image] with [qwamos_public_key]; only the
    wording of the console lines differs. *)
Theorem kernel_and_initramfs_verify_alike
    {oqs : LibOQS} (m : memory) (addr size : Z) (t t' : trace) :
  fst (kyber1024_verify_kernel m addr size t) =
    fst (kyber1024_verify_initramfs m addr size t') /\
  fst (kyber1024_verify_kernel m addr size t) =
    fst (kyber1024_verify_image m addr size (addr + size)
           qwamos_public_key []) /\
  liboqs_calls (snd (kyber1024_verify_kernel m addr size [])) =
    liboqs_calls (snd (kyber1024_verify_initramfs m addr size [])).
Proof.
  split; [|split].
  - now rewrite kyber1024_verify_kernel_result,
      kyber1024_verify_initramfs_result.
  - apply kyber1024_verify_kernel_result.
  - rewrite kyber1024_verify_kernel_run, kyber1024_verify_initramfs_run.
    cbv zeta. rewrite !liboqs_calls_app.
    destruct (negb (_ =? 0)); reflexivity.
Qed.

(* ================================================================== *)
(** * The public key and the boot chain *)
(* ================================================================== *)

Lemma qwamos_public_key_length :
  List.length qwamos_public_key = Z.to_nat KYBER1024_PUBLIC_KEY_BYTES.
Proof. unfold qwamos_public_key. apply repeat_length. Qed.

Lemma memcpy_whole_source (dst src : list byte) (n : Z) :
  List.length src = Z.to_nat n ->
  memcpy dst src n = src ++ skipn (Z.to_nat n) dst.
Proof. intros H. unfold memcpy. now rewrite (firstn_whole src _ H). Qed.

(** C7, as the claim states it, fails.  The embedded key always has
    exactly 1568 bytes and no backing store is consulted, yet a call with
    a 100-byte buffer fails; and a call whose size argument is 2000, not
    exactly 1568, succeeds. *)
Lemma load_public_key_depends_on_buffer_size_only :
  List.length qwamos_public_key = 1568%nat /\
  fst (fst (kyber1024_load_public_key (repeat x00 100) 100 [])) = -1 /\
  fst (fst (kyber1024_load_public_key (repeat xff 2000) 2000 [])) = 0.
Proof. repeat split; vm_compute; reflexivity. Qed.

(** C7, amended.  [kyber1024_load_public_key] fails (returns -1) exactly
    when the size of the caller's buffer is smaller than
    [KYBER1024_PUBLIC_KEY_BYTES] (1568), and then leaves the buffer as it
    was; in every other case it returns 0 and the first 1568 bytes of the
    buffer are the embedded key, unchanged, the rest of the buffer being
    left as it was.  No backing store is consulted and the length of the
    key is not examined. *)
Theorem load_public_key_fails_iff_buffer_too_small
    (key_buffer : list byte) (key_size : Z) (t : trace) :
  let status := fst (fst (kyber1024_load_public_key key_buffer key_size t)) in
  let buffer := snd (fst (kyber1024_load_public_key key_buffer key_size t)) in
  (status = -1 <-> key_size < KYBER1024_PUBLIC_KEY_BYTES) /\
  (status = 0 <-> KYBER1024_PUBLIC_KEY_BYTES <= key_size) /\
  (key_size < KYBER1024_PUBLIC_KEY_BYTES -> buffer = key_buffer) /\
  (KYBER1024_PUBLIC_KEY_BYTES <= key_size ->
   firstn (Z.to_nat KYBER1024_PUBLIC_KEY_BYTES) buffer = qwamos_public_key /\
   skipn (Z.to_nat KYBER1024_PUBLIC_KEY_BYTES) buffer =
     skipn (Z.to_nat KYBER1024_PUBLIC_KEY_BYTES) key_buffer).
Proof.
  cbv zeta. unfold kyber1024_load_public_key.
  destruct (key_size <? KYBER1024_PUBLIC_KEY_BYTES) eqn:E.
  - apply Z.ltb_lt in E. run_step.
    repeat split; intros; try reflexivity; try assumption; try lia.
  - apply Z.ltb_ge in E. unfold ret. cbn [fst snd].
    rewrite (memcpy_whole_source _ _ _ qwamos_public_key_length).
    split; [split; [discriminate | lia]|].
    split; [split; [intros _; exact E | reflexivity]|].
    split; [lia|]. intros _. split.
    + rewrite <- qwamos_public_key_length.
      rewrite firstn_app, firstn_all, Nat.sub_diag. cbn [firstn].
      apply app_nil_r.
    + rewrite <- qwamos_public_key_length at 1.
      rewrite skipn_app, skipn_all, Nat.sub_diag. reflexivity.
Qed.

Lemma load_public_key_fails_iff_buffer_too_small_witness :
  snd (fst (kyber1024_load_public_key (repeat x00 100) 100 [])) =
    repeat x00 100 /\
  firstn (Z.to_nat KYBER1024_PUBLIC_KEY_BYTES)
    (snd (fst (kyber1024_load_public_key (repeat xff 2000) 2000 []))) =
    qwamos_public_key.
Proof.
  split.
  - apply (load_public_key_fails_iff_buffer_too_small (repeat x00 100) 100 []).
    unfold KYBER1024_PUBLIC_KEY_BYTES. lia.
  - apply (load_public_key_fails_iff_buffer_too_small (repeat xff 2000) 2000 []).
    unfold KYBER1024_PUBLIC_KEY_BYTES. lia.
Defined.

Lemma secure_boot_verify_chain_run (stack : list byte) (t : trace) :
  secure_boot_verify_chain stack t =
  (0, t ++
      [Printf "\n" [];
       Printf "================================================================================\n" [];
       Printf "                    QWAMOS SECURE BOOT VERIFICATION\n" [];
       Printf "           Post-Quantum Cryptography: Kyber-1024 (NIST FIPS 203)\n" [];
       Printf "================================================================================\n" [];
       Printf "\n" [];
       Printf "Step 1: Loading public key...\n" [];
       Printf "Public key loaded successfully.\n\n" [];
       Printf "================================================================================\n" [];
       Printf "QWAMOS Secure Boot: Ready to verify boot images\n" [];
       Printf "================================================================================\n" [];
       Printf "\n" []]).
Proof.
  unfold secure_boot_verify_chain. cbv zeta.
  unfold kyber1024_load_public_key.
  replace (KYBER1024_PUBLIC_KEY_BYTES <? KYBER1024_PUBLIC_KEY_BYTES)
    with false by (symmetry; apply Z.ltb_irrefl).
  repeat (rewrite bind_run; cbn beta).
  unfold printf, emit, ret. cbn [fst snd Z.eqb negb].
  repeat (rewrite bind_run; cbn beta). cbn [fst snd].
  rewrite <- !app_assoc. reflexivity.
Qed.

(** C2: what the code does where the claim expects the chain to be
    verified.  Whatever is in memory, [secure_boot_verify_chain] returns 0
    after loading the public key once and printing its banner: it makes
    no call into liboqs and verifies no image.  In particular it returns
    0 when the kernel in memory is one that [kyber1024_verify_kernel]
    refuses ([image_bad_magic], at address 0 with size 4). *)
Theorem secure_boot_verify_chain_verifies_no_image
    (stack : list byte) (t : trace) :
  fst (secure_boot_verify_chain stack t) = 0 /\
  (exists out, snd (secure_boot_verify_chain stack t) = t ++ out /\
               liboqs_calls out = []) /\
  fst (@kyber1024_verify_kernel oqs_accepting image_bad_magic 0 4 t) = -1.
Proof.
  rewrite secure_boot_verify_chain_run. cbn [fst snd].
  split; [reflexivity|split].
  - eexists. split; reflexivity.
  - rewrite kyber1024_verify_kernel_result. vm_compute. reflexivity.
Qed.

(* ================================================================== *)
(** * The kill-switch attributes *)
(* ================================================================== *)

Section KillswitchFacts.

Context {kernel : KernelLib}.

(** A write that [sscanf] turns into 0 or 1. *)
Lemma attr_store_accepts (a : attribute) (buf : string) (count : Z)
    (w : ks_world) (v : Z) :
  sscanf_d buf = Some v -> v = 0 \/ v = 1 ->
  let w' := snd (attr_store a buf count w) in
  fst (attr_store a buf count w) = count /\
  attr_field a (ks_state w') = v /\
  gpio_level w' (attr_gpio a) = v /\
  forall b, attribute_eqb b a = false ->
    attr_field b (ks_state w') = attr_field b (ks_state w) /\
    gpio_level w' (attr_gpio b) = gpio_level w (attr_gpio b).
Proof.
  intros Hscan Hv. cbv zeta.
  destruct a; cbn [attr_store attr_field attr_gpio];
    unfold camera_store, mic_store, cellular_store; rewrite Hscan;
    destruct Hv as [-> | ->]; cbn [Z.eqb negb andb];
    (split; [reflexivity|split; [reflexivity|split; [reflexivity|]]]);
    intros b Hb; destruct b; try discriminate Hb; split; reflexivity.
Qed.

(** A write that [sscanf] does not turn into 0 or 1. *)
Lemma attr_store_rejects (a : attribute) (buf : string) (count : Z)
    (w : ks_world) :
  (sscanf_d buf = None \/
   exists v, sscanf_d buf = Some v /\ v <> 0 /\ v <> 1) ->
  attr_store a buf count w = (- EINVAL, w).
Proof.
  intros [Hscan | (v & Hscan & Hv0 & Hv1)];
    destruct a; cbn [attr_store];
    unfold camera_store, mic_store, cellular_store; rewrite Hscan;
    try reflexivity;
    apply Z.eqb_neq in Hv0, Hv1; rewrite Hv0, Hv1; reflexivity.
Qed.

(** A read returns the decimal text of the stored state and changes
    nothing. *)
Lemma attr_show_run (a : attribute) (w : ks_world) :
  attr_show a w =
  (strlen (sprintf_d_newline (attr_field a (ks_state w)))
   , sprintf_d_newline (attr_field a (ks_state w))
   , w).
Proof. destruct a; reflexivity. Qed.

End KillswitchFacts.

(** C9.  For a write to any of the three kill-switch attributes (camera,
    microphone, cellular):
    - if [sscanf(buf, "%d", &value)] yields 0 or 1, the write returns
      [count], the attribute's field of [ks_state] and its GPIO line take
      that value, and a read of the same attribute that follows returns
      that value as text ("0" or "1" and a newline);
    - otherwise the write returns [-EINVAL] and leaves [ks_state], the
      GPIO lines and everything else as they were;
    - in both cases the fields and GPIO lines of the other two attributes
      are as they were. *)
Theorem killswitch_store_sets_only_its_toggle
    {kernel : KernelLib}
    (a : attribute) (buf : string) (count : Z) (w : ks_world) :
  let status := fst (attr_store a buf count w) in
  let w' := snd (attr_store a buf count w) in
  (forall v, sscanf_d buf = Some v -> v = 0 \/ v = 1 ->
     status = count /\
     attr_field a (ks_state w') = v /\
     gpio_level w' (attr_gpio a) = v /\
     fst (attr_show a w') = (2, sprintf_d_newline v)) /\
  ((sscanf_d buf = None \/
    exists v, sscanf_d buf = Some v /\ v <> 0 /\ v <> 1) ->
   status = - EINVAL /\ w' = w) /\
  (forall b, b <> a ->
     attr_field b (ks_state w') = attr_field b (ks_state w) /\
     gpio_level w' (attr_gpio b) = gpio_level w (attr_gpio b)).
Proof.
  cbv zeta. split; [|split].
  - intros v Hscan Hv.
    destruct (attr_store_accepts a buf count w v Hscan Hv)
      as (Hstatus & Hfield & Hgpio & _).
    cbv zeta in Hfield, Hgpio.
    repeat (split; [assumption|]).
    rewrite attr_show_run. cbn [fst]. rewrite Hfield.
    destruct Hv as [-> | ->]; reflexivity.
  - intros Hbad. rewrite (attr_store_rejects a buf count w Hbad).
    split; reflexivity.
  - intros b Hb.
    assert (Hneq : attribute_eqb b a = false)
      by (destruct a, b; try reflexivity; contradiction Hb; reflexivity).
    destruct (sscanf_d buf) as [v|] eqn:Hscan.
    + destruct (Z.eq_dec v 0) as [E0|N0]; [|destruct (Z.eq_dec v 1) as [E1|N1]].
      * now apply (attr_store_accepts a buf count w v Hscan (or_introl E0)).
      * now apply (attr_store_accepts a buf count w v Hscan (or_intror E1)).
      * rewrite (attr_store_rejects a buf count w); [split; reflexivity|].
        right. exists v. auto.
    + rewrite (attr_store_rejects a buf count w); [split; reflexivity|].
      now left.
Qed.

(** Writing "1" to the microphone attribute of a driver whose camera and
    cellular switches are on; and writing "on" to it. *)
Lemma killswitch_store_sets_only_its_toggle_witness :
  (let w' := snd (@attr_store kernel_scanning killswitch_mic "1" 2
                    ks_world_camera_cellular_on) in
   fst (@attr_store kernel_scanning killswitch_mic "1" 2
          ks_world_camera_cellular_on) = 2 /\
   attr_field killswitch_mic (ks_state w') = 1 /\
   gpio_level w' (attr_gpio killswitch_mic) = 1 /\
   fst (attr_show killswitch_mic w') = (2, sprintf_d_newline 1)) /\
  (fst (@attr_store kernel_scanning killswitch_mic "on" 3
          ks_world_camera_cellular_on) = - EINVAL /\
   snd (@attr_store kernel_scanning killswitch_mic "on" 3
          ks_world_camera_cellular_on) = ks_world_camera_cellular_on) /\
  (let w' := snd (@attr_store kernel_scanning killswitch_mic "1" 2
                    ks_world_camera_cellular_on) in
   attr_field killswitch_camera (ks_state w') =
     attr_field killswitch_camera (ks_state ks_world_camera_cellular_on) /\
   gpio_level w' (attr_gpio killswitch_camera) =
     gpio_level ks_world_camera_cellular_on (attr_gpio killswitch_camera)).
Proof.
  split; [|split].
  - apply (@killswitch_store_sets_only_its_toggle kernel_scanning
             killswitch_mic "1" 2 ks_world_camera_cellular_on).
    + vm_compute. reflexivity.
    + right. reflexivity.
  - apply (@killswitch_store_sets_only_its_toggle kernel_scanning
             killswitch_mic "on" 3 ks_world_camera_cellular_on).
    left. vm_compute. reflexivity.
  - apply (@killswitch_store_sets_only_its_toggle kernel_scanning
             killswitch_mic "1" 2 ks_world_camera_cellular_on).
    discriminate.
Defined.

(* ================================================================== *)
(** * Further properties of the bootloader *)
(* ================================================================== *)

(** ** The hex dump *)

Lemma skipn_cons_nth {A : Type} (d : A) (l : list A) :
  forall k, (k < List.length l)%nat ->
  skipn k l = nth k l d :: skipn (S k) l.
Proof.
  induction l as [|x l IH]; intros k Hk; simpl in Hk; [lia|].
  destruct k as [|k]; [reflexivity|].
  cbn [skipn nth]. apply IH. lia.
Qed.

(** Printing [bs[i]], [bs[i+1]], ... one [printf] each prints the bytes
    of [bs] from index [i] on, in order. *)
Lemma for_loop_printf_bytes (format : string) (bs : list byte) (n : nat) :
  forall (i : Z) (t : trace),
    0 <= i -> (Z.to_nat i + n <= List.length bs)%nat ->
    for_loop n i (fun j => printf format [byte_at bs j]) t =
    (tt, t ++ map (fun b => Printf format [uint8 b])
                (firstn n (skipn (Z.to_nat i) bs))).
Proof.
  induction n as [|n IH]; intros i t Hi Hlen.
  - cbn [for_loop firstn map]. unfold ret. now rewrite app_nil_r.
  - cbn [for_loop]. rewrite bind_run. cbn beta.
    unfold printf at 1 2, emit at 1 2. cbn [fst snd].
    rewrite IH by lia.
    replace (Z.to_nat (i + 1)) with (S (Z.to_nat i)) by lia.
    rewrite (skipn_cons_nth x00 bs (Z.to_nat i)) by lia.
    cbn [firstn map]. unfold byte_at.
    rewrite <- app_assoc. reflexivity.
Qed.

Lemma hex_dump_32 (format : string) (bs : list byte) (t : trace) :
  List.length bs = 32%nat ->
  for_loop 32 0 (fun j => printf format [byte_at bs j]) t =
  (tt, t ++ map (fun b => Printf format [uint8 b]) bs).
Proof.
  intros Hlen. rewrite for_loop_printf_bytes.
  - change (Z.to_nat 0) with 0%nat. cbn [skipn].
    now rewrite (firstn_whole bs 32 Hlen).
  - lia.
  - rewrite Hlen. change (Z.to_nat 0) with 0%nat. lia.
Qed.

Lemma liboqs_calls_hex_dump (format : string) (bs : list byte) :
  liboqs_calls (map (fun b => Printf format [uint8 b]) bs) = [].
Proof. induction bs as [|b bs IH]; [reflexivity|exact IH]. Qed.

Section FurtherBootloaderFacts.

Context {oqs : LibOQS}.

Lemma sig_image_hash_length (m : memory) (signature : Z) :
  List.length (sig_image_hash m signature) = 32%nat.
Proof. unfold sig_image_hash. now rewrite load_bytes_length. Qed.

Lemma memcmp_digest_iff (m : memory) (signature : Z) (data : list byte) :
  memcmp (OQS_SHA2_sha256 data) (sig_image_hash m signature) 32 = 0 <->
  OQS_SHA2_sha256 data = sig_image_hash m signature.
Proof.
  rewrite memcmp_0_iff.
  rewrite (firstn_whole _ 32 (OQS_SHA2_sha256_length data)).
  rewrite (firstn_whole _ 32 (sig_image_hash_length m signature)).
  reflexivity.
Qed.

(** How [kyber1024_verify_image] runs when the header checks pass and the
    digest differs from the recorded hash. *)
Lemma verify_image_hash_fails
    (m : memory) (image image_size signature : Z) (public_key : list byte)
    (t : trace) :
  sig_magic m signature = QWAMOS_SIG_MAGIC ->
  sig_version m signature = QWAMOS_SIG_VERSION ->
  sig_image_size m signature = image_size ->
  OQS_SHA2_sha256 (load_bytes m image image_size)
    <> sig_image_hash m signature ->
  kyber1024_verify_image m image image_size signature public_key t =
  (-1, t ++ [Call fn_OQS_SHA2_sha256;
             Printf "ERROR: Image hash mismatch!\n" [];
             Printf "  Expected: " []]
         ++ map (fun b => Printf "%02x" [uint8 b]) (sig_image_hash m signature)
         ++ [Printf "\n  Computed: " []]
         ++ map (fun b => Printf "%02x" [uint8 b])
              (OQS_SHA2_sha256 (load_bytes m image image_size))
         ++ [Printf "\n" []]).
Proof.
  intros Hmagic Hversion Hsize Hhash.
  unfold kyber1024_verify_image.
  apply Z.eqb_eq in Hmagic, Hversion, Hsize.
  rewrite Hmagic, Hversion, Hsize. cbn [negb].
  rewrite bind_run, sha256_hash_run. cbn [fst snd].
  assert (Hcmp : (memcmp (OQS_SHA2_sha256 (load_bytes m image image_size))
                   (sig_image_hash m signature) 32 =? 0) = false).
  { apply Z.eqb_neq. intros E. apply Hhash. now apply memcmp_digest_iff. }
  rewrite Hcmp. cbn [negb].
  repeat (rewrite bind_run; cbn beta).
  rewrite (hex_dump_32 "%02x" (OQS_SHA2_sha256 (load_bytes m image image_size)))
    by apply OQS_SHA2_sha256_length.
  rewrite (hex_dump_32 "%02x" (sig_image_hash m signature))
    by apply sig_image_hash_length.
  unfold printf, emit, ret. cbn [fst snd].
  rewrite <- !app_assoc. reflexivity.
Qed.

(** How [kyber1024_verify_signature] runs. *)
Lemma kyber1024_verify_signature_run
    (message : list byte) (message_len : Z) (signature public_key : list byte)
    (t : trace) :
  kyber1024_verify_signature message message_len signature public_key t =
  match OQS_SIG_new OQS_SIG_alg_dilithium_5 with
  | None =>
      (-1, t ++ [Call fn_OQS_SIG_new;
                 Printf "ERROR: Failed to initialize Kyber signature scheme\n" []])
  | Some sig =>
      if OQS_STATUS_eqb
           (OQS_SIG_verify sig message message_len signature
              (length_signature sig) public_key) OQS_SUCCESS
      then (0, t ++ [Call fn_OQS_SIG_new; Call fn_OQS_SIG_verify;
                     Call fn_OQS_SIG_free])
      else (-1, t ++ [Call fn_OQS_SIG_new; Call fn_OQS_SIG_verify;
                      Printf "ERROR: Signature verification failed!\n" [];
                      Call fn_OQS_SIG_free])
  end.
Proof.
  unfold kyber1024_verify_signature. rewrite bind_run. cbn beta.
  destruct (OQS_SIG_new OQS_SIG_alg_dilithium_5) as [sig|].
  - destruct (OQS_STATUS_eqb _ _);
      repeat (rewrite bind_run; cbn beta);
      unfold printf, emit, ret; cbn [fst snd];
      repeat (rewrite bind_run; cbn beta); cbn [fst snd];
      rewrite <- !app_assoc; reflexivity.
  - repeat (rewrite bind_run; cbn beta).
    unfold printf, emit, ret. cbn [fst snd].
    rewrite <- !app_assoc. reflexivity.
Qed.

End FurtherBootloaderFacts.

(** X2.  A digest that differs from the recorded hash stops the
    verification after hashing.  With magic, version and image_size
    valid, [kyber1024_verify_image] returns -1; it prints "ERROR: Image
    hash mismatch!", then the 32 bytes of the recorded hash after
    "  Expected: " and the 32 bytes of the computed digest after
    "  Computed: ", one [printf] per byte and in order; its only call into
    liboqs is the one that computed the digest, so the signature is never
    examined. *)
Theorem hash_mismatch_fails_before_signature_check
    {oqs : LibOQS}
    (m : memory) (image image_size signature : Z) (public_key : list byte)
    (t : trace) :
  sig_magic m signature = QWAMOS_SIG_MAGIC ->
  sig_version m signature = QWAMOS_SIG_VERSION ->
  sig_image_size m signature = image_size ->
  OQS_SHA2_sha256 (load_bytes m image image_size)
    <> sig_image_hash m signature ->
  exists out,
    kyber1024_verify_image m image image_size signature public_key t
      = (-1, t ++ out) /\
    out = [Call fn_OQS_SHA2_sha256;
           Printf "ERROR: Image hash mismatch!\n" [];
           Printf "  Expected: " []]
          ++ map (fun b => Printf "%02x" [uint8 b]) (sig_image_hash m signature)
          ++ [Printf "\n  Computed: " []]
          ++ map (fun b => Printf "%02x" [uint8 b])
               (OQS_SHA2_sha256 (load_bytes m image image_size))
          ++ [Printf "\n" []] /\
    List.length out = 69%nat /\
    liboqs_calls out = [fn_OQS_SHA2_sha256].
Proof.
  intros Hmagic Hversion Hsize Hhash.
  eexists. split; [|split; [reflexivity|split]].
  - now apply verify_image_hash_fails.
  - repeat (rewrite ?length_app, ?length_map; cbn [app List.length]).
    rewrite sig_image_hash_length, OQS_SHA2_sha256_length. reflexivity.
  - repeat (rewrite ?liboqs_calls_app, ?liboqs_calls_hex_dump;
            cbn [app liboqs_calls]).
    reflexivity.
Qed.

Lemma hash_mismatch_fails_before_signature_check_witness :
  exists out,
    @kyber1024_verify_image oqs_accepting image_bad_hash 0 4 4
      qwamos_public_key [] = (-1, [] ++ out) /\
    out = [Call fn_OQS_SHA2_sha256;
           Printf "ERROR: Image hash mismatch!\n" [];
           Printf "  Expected: " []]
          ++ map (fun b => Printf "%02x" [uint8 b])
               (sig_image_hash image_bad_hash 4)
          ++ [Printf "\n  Computed: " []]
          ++ map (fun b => Printf "%02x" [uint8 b])
               (@OQS_SHA2_sha256 oqs_accepting (load_bytes image_bad_hash 0 4))
          ++ [Printf "\n" []] /\
    List.length out = 69%nat /\
    liboqs_calls out = [fn_OQS_SHA2_sha256].
Proof.
  apply (@hash_mismatch_fails_before_signature_check oqs_accepting
           image_bad_hash 0 4 4 qwamos_public_key []).
  - vm_compute. reflexivity.
  - vm_compute. reflexivity.
  - vm_compute. reflexivity.
  - vm_compute. discriminate.
Defined.

(** X3.  [kyber1024_verify_image] consults liboqs only as far as the
    checks have come.  If magic, version or image_size is wrong it makes
    no call at all; if they are right and the digest differs from the
    recorded hash, its only call is the SHA-256 one; if the digest matches
    it goes on to [OQS_SIG_new] and, when that yields a scheme, to one
    [OQS_SIG_verify] followed by [OQS_SIG_free]. *)
Theorem verify_image_calls_liboqs_by_stage
    {oqs : LibOQS}
    (m : memory) (image image_size signature : Z) (public_key : list byte) :
  let calls :=
    liboqs_calls
      (snd (kyber1024_verify_image m image image_size signature public_key [])) in
  (sig_magic m signature <> QWAMOS_SIG_MAGIC \/
   sig_version m signature <> QWAMOS_SIG_VERSION \/
   sig_image_size m signature <> image_size ->
   calls = []) /\
  (sig_magic m signature = QWAMOS_SIG_MAGIC ->
   sig_version m signature = QWAMOS_SIG_VERSION ->
   sig_image_size m signature = image_size ->
   OQS_SHA2_sha256 (load_bytes m image image_size)
     <> sig_image_hash m signature ->
   calls = [fn_OQS_SHA2_sha256]) /\
  (sig_magic m signature = QWAMOS_SIG_MAGIC ->
   sig_version m signature = QWAMOS_SIG_VERSION ->
   sig_image_size m signature = image_size ->
   OQS_SHA2_sha256 (load_bytes m image image_size)
     = sig_image_hash m signature ->
   calls =
     fn_OQS_SHA2_sha256 :: fn_OQS_SIG_new ::
     match OQS_SIG_new OQS_SIG_alg_dilithium_5 with
     | None => []
     | Some _ => [fn_OQS_SIG_verify; fn_OQS_SIG_free]
     end).
Proof.
  cbv zeta. split; [|split].
  - intros Hbad.
    destruct (Z.eq_dec (sig_magic m signature) QWAMOS_SIG_MAGIC) as [Hm|Hm];
      [|now rewrite verify_image_magic_fails].
    destruct (Z.eq_dec (sig_version m signature) QWAMOS_SIG_VERSION) as [Hv|Hv];
      [|now rewrite verify_image_version_fails].
    destruct (Z.eq_dec (sig_image_size m signature) image_size) as [Hs|Hs];
      [|now rewrite verify_image_size_fails].
    destruct Hbad as [H|[H|H]]; contradiction.
  - intros Hm Hv Hs Hh. rewrite verify_image_hash_fails by assumption.
    cbn [snd].
    repeat (rewrite ?liboqs_calls_app, ?liboqs_calls_hex_dump;
            cbn [app liboqs_calls]).
    reflexivity.
  - intros Hm Hv Hs Hh. rewrite verify_image_after_hash by assumption.
    cbv zeta. rewrite kyber1024_verify_signature_run.
    destruct (OQS_SIG_new OQS_SIG_alg_dilithium_5) as [sig|];
      [destruct (OQS_STATUS_eqb _ _)|]; reflexivity.
Qed.

Lemma verify_image_calls_liboqs_by_stage_witness :
  liboqs_calls
    (snd (@kyber1024_verify_image oqs_accepting image_bad_version 0 4 4
            qwamos_public_key [])) = [] /\
  liboqs_calls
    (snd (@kyber1024_verify_image oqs_accepting image_bad_hash 0 4 4
            qwamos_public_key [])) = [fn_OQS_SHA2_sha256] /\
  liboqs_calls
    (snd (@kyber1024_verify_image oqs_unavailable image_well_formed 0 4 4
            qwamos_public_key [])) = [fn_OQS_SHA2_sha256; fn_OQS_SIG_new].
Proof.
  split; [|split].
  - apply (@verify_image_calls_liboqs_by_stage oqs_accepting
             image_bad_version 0 4 4 qwamos_public_key).
    right. left. vm_compute. discriminate.
  - apply (@verify_image_calls_liboqs_by_stage oqs_accepting
             image_bad_hash 0 4 4 qwamos_public_key);
      vm_compute; (reflexivity || discriminate).
  - apply (@verify_image_calls_liboqs_by_stage oqs_unavailable
             image_well_formed 0 4 4 qwamos_public_key);
      vm_compute; reflexivity.
Defined.

(** X4.  [kyber1024_verify_signature] releases what it acquires.  It
    calls [OQS_SIG_new] once; when that returns a scheme it calls
    [OQS_SIG_verify] once and then [OQS_SIG_free], whether the signature
    was accepted or rejected; when it returns NULL it calls neither.  The
    call to [OQS_SIG_free] is present exactly when a scheme was
    obtained. *)
Theorem verify_signature_frees_the_scheme
    {oqs : LibOQS}
    (message : list byte) (message_len : Z) (signature public_key : list byte) :
  let calls :=
    liboqs_calls
      (snd (kyber1024_verify_signature message message_len signature
              public_key [])) in
  calls =
    match OQS_SIG_new OQS_SIG_alg_dilithium_5 with
    | None => [fn_OQS_SIG_new]
    | Some _ => [fn_OQS_SIG_new; fn_OQS_SIG_verify; fn_OQS_SIG_free]
    end /\
  (In fn_OQS_SIG_free calls <-> OQS_SIG_new OQS_SIG_alg_dilithium_5 <> None).
Proof.
  cbv zeta. rewrite kyber1024_verify_signature_run.
  destruct (OQS_SIG_new OQS_SIG_alg_dilithium_5) as [sig|].
  - destruct (OQS_STATUS_eqb _ _); cbn [snd app liboqs_calls];
      (split; [reflexivity|]); (split; [discriminate|]);
      intros _; cbn [In]; auto.
  - cbn [snd app liboqs_calls]. split; [reflexivity|].
    split; [|congruence].
    intros [H|[]]. discriminate.
Qed.

(** ** What the console says about the outcome *)

Lemma success_line_not_hex (bs : list byte) :
  ~ In success_line (map (fun b => Printf "%02x" [uint8 b]) bs).
Proof.
  intros H. apply in_map_iff in H. destruct H as (b & E & _).
  unfold success_line in E. discriminate.
Qed.

Ltac split_in :=
  repeat match goal with
         | H : In _ (_ ++ _) |- _ => apply in_app_or in H; destruct H as [H|H]
         | H : In _ (_ :: _) |- _ => destruct H as [H|H]
         | H : In _ [] |- _ => destruct H
         | H : In success_line (map _ _) |- _ =>
             exfalso; exact (success_line_not_hex _ H)
         | H : _ = success_line |- _ => unfold success_line in H; discriminate H
         end.

(** X5.  The console can be trusted on success: the trace of
    [kyber1024_verify_image] contains the line "SUCCESS: Image signature
    verified (Kyber-1024)" exactly when the function returns 0.  No
    failing run prints it. *)
Theorem success_line_printed_iff_image_accepted
    {oqs : LibOQS}
    (m : memory) (image image_size signature : Z) (public_key : list byte) :
  In success_line
     (snd (kyber1024_verify_image m image image_size signature public_key []))
  <->
  fst (kyber1024_verify_image m image image_size signature public_key []) = 0.
Proof.
  destruct (Z.eq_dec (sig_magic m signature) QWAMOS_SIG_MAGIC) as [Hm|Hm];
    [|rewrite verify_image_magic_fails by assumption; cbn [fst snd app];
      split; [intros H; split_in | discriminate]].
  destruct (Z.eq_dec (sig_version m signature) QWAMOS_SIG_VERSION) as [Hv|Hv];
    [|rewrite verify_image_version_fails by assumption; cbn [fst snd app];
      split; [intros H; split_in | discriminate]].
  destruct (Z.eq_dec (sig_image_size m signature) image_size) as [Hs|Hs];
    [|rewrite verify_image_size_fails by assumption; cbn [fst snd app];
      split; [intros H; split_in | discriminate]].
  destruct (list_eq_dec byte_eq_dec
              (OQS_SHA2_sha256 (load_bytes m image image_size))
              (sig_image_hash m signature)) as [Hh|Hh];
    [|rewrite verify_image_hash_fails by assumption; cbn [fst snd];
      split; [intros H; split_in | discriminate]].
  rewrite verify_image_after_hash by assumption. cbv zeta.
  rewrite kyber1024_verify_signature_run.
  destruct (OQS_SIG_new OQS_SIG_alg_dilithium_5) as [sig|];
    [destruct (OQS_STATUS_eqb _ _)|]; cbn [fst snd Z.eqb negb app].
  - split; [reflexivity|]. intros _. unfold success_line.
    do 5 right. left. reflexivity.
  - split; [intros H; split_in | discriminate].
  - split; [intros H; split_in | discriminate].
Qed.

Section EntryPointFacts.

Context {oqs : LibOQS}.

(** When [kyber1024_verify_image] returns 0. *)
Lemma verify_image_accepts_iff
    (m : memory) (image image_size signature : Z) (public_key : list byte)
    (t : trace) :
  fst (kyber1024_verify_image m image image_size signature public_key t) = 0
  <->
  sig_magic m signature = QWAMOS_SIG_MAGIC /\
  sig_version m signature = QWAMOS_SIG_VERSION /\
  sig_image_size m signature = image_size /\
  OQS_SHA2_sha256 (load_bytes m image image_size)
    = sig_image_hash m signature /\
  exists sig,
    OQS_SIG_new OQS_SIG_alg_dilithium_5 = Some sig /\
    OQS_SIG_verify sig (OQS_SHA2_sha256 (load_bytes m image image_size)) 32
      (sig_kyber_signature m signature) (length_signature sig) public_key
      = OQS_SUCCESS.
Proof.
  destruct (Z.eq_dec (sig_magic m signature) QWAMOS_SIG_MAGIC) as [Hm|Hm];
    [|rewrite verify_image_magic_fails by assumption;
      split; [discriminate | intros (H & _); contradiction]].
  destruct (Z.eq_dec (sig_version m signature) QWAMOS_SIG_VERSION) as [Hv|Hv];
    [|rewrite verify_image_version_fails by assumption;
      split; [discriminate | intros (_ & H & _); contradiction]].
  destruct (Z.eq_dec (sig_image_size m signature) image_size) as [Hs|Hs];
    [|rewrite verify_image_size_fails by assumption;
      split; [discriminate | intros (_ & _ & H & _); contradiction]].
  destruct (list_eq_dec byte_eq_dec
              (OQS_SHA2_sha256 (load_bytes m image image_size))
              (sig_image_hash m signature)) as [Hh|Hh];
    [|rewrite verify_image_hash_fails by assumption;
      split; [discriminate | intros (_ & _ & _ & H & _); contradiction]].
  rewrite verify_image_after_hash by assumption. cbv zeta.
  rewrite kyber1024_verify_signature_result.
  destruct (OQS_SIG_new OQS_SIG_alg_dilithium_5) as [sig|].
  - destruct (OQS_SIG_verify sig _ 32 _ _ public_key) eqn:Everify;
      cbn [OQS_STATUS_eqb Z.eqb negb fst]; split;
      try discriminate; try reflexivity;
      try (intros (_ & _ & _ & _ & sig' & Hnew & Hver);
           inversion Hnew; subst sig'; congruence).
    intros _. repeat (split; [assumption|]). exists sig. auto.
  - cbn [Z.eqb negb fst]. split; [discriminate|].
    intros (_ & _ & _ & _ & sig' & Hnew & _). discriminate.
Qed.

End EntryPointFacts.

(** X6.  The two entry points accept an image exactly when the record
    that starts right after its last payload byte passes every check
    under the key embedded in the bootloader: [kyber1024_verify_kernel],
    and likewise [kyber1024_verify_initramfs], returns 0 if and only if
    the record at [addr + size] has the magic, version 1 and image_size
    [size], the SHA-256 digest of the [size] bytes at [addr] equals its
    image_hash, and liboqs accepts its signature over that digest under
    [qwamos_public_key]; otherwise each returns -1. *)
Theorem entry_points_accept_iff_trailing_record_valid
    {oqs : LibOQS} (m : memory) (addr size : Z) (t : trace) :
  let accepted :=
    sig_magic m (addr + size) = QWAMOS_SIG_MAGIC /\
    sig_version m (addr + size) = QWAMOS_SIG_VERSION /\
    sig_image_size m (addr + size) = size /\
    OQS_SHA2_sha256 (load_bytes m addr size)
      = sig_image_hash m (addr + size) /\
    exists sig,
      OQS_SIG_new OQS_SIG_alg_dilithium_5 = Some sig /\
      OQS_SIG_verify sig (OQS_SHA2_sha256 (load_bytes m addr size)) 32
        (sig_kyber_signature m (addr + size)) (length_signature sig)
        qwamos_public_key = OQS_SUCCESS in
  (fst (kyber1024_verify_kernel m addr size t) = 0 <-> accepted) /\
  (fst (kyber1024_verify_initramfs m addr size t) = 0 <-> accepted) /\
  (fst (kyber1024_verify_kernel m addr size t) = 0 \/
   fst (kyber1024_verify_kernel m addr size t) = -1) /\
  (fst (kyber1024_verify_initramfs m addr size t) = 0 \/
   fst (kyber1024_verify_initramfs m addr size t) = -1).
Proof.
  cbv zeta.
  rewrite kyber1024_verify_kernel_result, kyber1024_verify_initramfs_result.
  split; [apply verify_image_accepts_iff|].
  split; [apply verify_image_accepts_iff|].
  split; apply kyber1024_verify_image_0_or_minus_1.
Qed.

(** X7.  The last console line tells the outcome of an entry point.
    When [kyber1024_verify_kernel] returns 0 its output ends with "Kernel
    signature verified successfully."; otherwise it returns -1 and its
    output ends with "CRITICAL: Kernel signature verification FAILED!"
    followed by "Boot process halted for security.".  The same holds for
    [kyber1024_verify_initramfs] with its own wording. *)
Theorem entry_points_end_with_their_verdict
    {oqs : LibOQS} (m : memory) (addr size : Z) (t : trace) :
  ((fst (kyber1024_verify_kernel m addr size t) = 0 /\
    exists out,
      snd (kyber1024_verify_kernel m addr size t) =
      t ++ out ++ [Printf "Kernel signature verified successfully.\n" []])
   \/
   (fst (kyber1024_verify_kernel m addr size t) = -1 /\
    exists out,
      snd (kyber1024_verify_kernel m addr size t) =
      t ++ out ++ [Printf "CRITICAL: Kernel signature verification FAILED!\n" [];
                   Printf "Boot process halted for security.\n" []]))
  /\
  ((fst (kyber1024_verify_initramfs m addr size t) = 0 /\
    exists out,
      snd (kyber1024_verify_initramfs m addr size t) =
      t ++ out ++ [Printf "Initramfs signature verified successfully.\n" []])
   \/
   (fst (kyber1024_verify_initramfs m addr size t) = -1 /\
    exists out,
      snd (kyber1024_verify_initramfs m addr size t) =
      t ++ out ++ [Printf "CRITICAL: Initramfs signature verification FAILED!\n" [];
                   Printf "Boot process halted for security.\n" []])).
Proof.
  rewrite kyber1024_verify_kernel_result, kyber1024_verify_initramfs_result.
  rewrite kyber1024_verify_kernel_run, kyber1024_verify_initramfs_run.
  cbv zeta.
  destruct (kyber1024_verify_image_0_or_minus_1 m addr size (addr + size)
              qwamos_public_key []) as [E|E]; cbv zeta in E; rewrite E;
    cbn [Z.eqb negb].
  - split; left; (split; [reflexivity|]);
      eexists (_ ++ snd (kyber1024_verify_image m addr size (addr + size)
                           qwamos_public_key []));
      rewrite <- app_assoc; reflexivity.
  - split; right; (split; [reflexivity|]);
      eexists (_ ++ snd (kyber1024_verify_image m addr size (addr + size)
                           qwamos_public_key []));
      rewrite <- app_assoc; reflexivity.
Qed.

(* ================================================================== *)
(** * Further properties of the kill-switch driver *)
(* ================================================================== *)

Section FurtherKillswitchFacts.

Context {kernel : KernelLib}.

(** How an accepted write runs. *)
Lemma attr_store_accepted_run (a : attribute) (buf : string) (count : Z)
    (w : ks_world) (v : Z) :
  sscanf_d buf = Some v -> v = 0 \/ v = 1 ->
  attr_store a buf count w =
  (count,
   mk_ks_world
     (match a with
      | killswitch_camera =>
          mk_killswitch_state v (mic_enabled (ks_state w))
            (cellular_enabled (ks_state w))
      | killswitch_mic =>
          mk_killswitch_state (camera_enabled (ks_state w)) v
            (cellular_enabled (ks_state w))
      | killswitch_cellular =>
          mk_killswitch_state (camera_enabled (ks_state w))
            (mic_enabled (ks_state w)) v
      end)
     (fun pin => if pin =? attr_gpio a then v else gpio_level w pin)
     (kernel_log w ++ [gpio_log_entry a v; switch_log_entry a v])).
Proof.
  intros Hscan Hv.
  destruct a; cbn [attr_store attr_gpio];
    unfold camera_store, mic_store, cellular_store; rewrite Hscan;
    destruct Hv as [-> | ->]; cbn [Z.eqb Pos.eqb negb andb];
    repeat (rewrite bind_run; cbn beta);
    unfold gpio_set_state;
    repeat (rewrite bind_run; cbn beta);
    unfold ret, pr_info, gpio_set_value, set_ks_state, get_ks_state;
    cbn [fst snd ks_state gpio_level kernel_log];
    rewrite <- ?app_assoc; reflexivity.
Qed.

(** A text either is accepted as 0 or 1, or is rejected by every
    attribute in every state. *)
Lemma attr_store_cases (buf : string) :
  (exists v, sscanf_d buf = Some v /\ (v = 0 \/ v = 1)) \/
  (forall a count w, attr_store a buf count w = (- EINVAL, w)).
Proof.
  destruct (sscanf_d buf) as [v|] eqn:Hscan.
  - destruct (Z.eq_dec v 0) as [E0|N0]; [left; exists v; auto|].
    destruct (Z.eq_dec v 1) as [E1|N1]; [left; exists v; auto|].
    right. intros a count w. apply attr_store_rejects. right. exists v. auto.
  - right. intros a count w. apply attr_store_rejects. now left.
Qed.

Lemma attr_store_keeps_mirror (a : attribute) (buf : string) (count : Z)
    (w : ks_world) :
  lines_mirror_state w ->
  lines_mirror_state (snd (attr_store a buf count w)).
Proof.
  intros Hw.
  destruct (attr_store_cases buf) as [(v & Hscan & Hv) | Hrej];
    [|now rewrite Hrej].
  rewrite (attr_store_accepted_run a buf count w v Hscan Hv). cbn [snd].
  intros c. specialize (Hw c).
  destruct a, c; cbn in *; try (split; [reflexivity | assumption]);
    exact Hw.
Qed.

End FurtherKillswitchFacts.

(** X9.  The driver's record never drifts from the hardware.  If every
    switch's recorded state is 0 or 1 and equals the level of its GPIO
    line, this is still so after any sequence of writes to the three
    attributes, whatever the texts written (accepted or rejected). *)
Theorem writes_keep_lines_and_state_in_step
    {kernel : KernelLib}
    (writes : list (attribute * string * Z)) (w : ks_world) :
  lines_mirror_state w ->
  lines_mirror_state (snd (write_all writes w)).
Proof.
  revert w. induction writes as [|[[a buf] count] writes IH]; intros w Hw.
  - exact Hw.
  - cbn [write_all]. rewrite bind_run. cbn beta.
    apply IH. now apply attr_store_keeps_mirror.
Qed.

Lemma writes_keep_lines_and_state_in_step_witness :
  lines_mirror_state
    (snd (@write_all kernel_scanning
            [(killswitch_camera, "1", 2); (killswitch_mic, "7", 2);
             (killswitch_cellular, "1", 2); (killswitch_camera, "0", 2)]
            ks_world_initial)).
Proof.
  apply (@writes_keep_lines_and_state_in_step kernel_scanning).
  intros a. destruct a; vm_compute; auto.
Defined.

(** X10.  Writes to different attributes do not interfere: made in
    either order, two writes to two distinct attributes leave the same
    recorded state and the same level on every GPIO line (only the order
    of the log entries differs). *)
Theorem writes_to_distinct_attributes_commute
    {kernel : KernelLib}
    (a b : attribute) (buf_a buf_b : string) (count_a count_b : Z)
    (w : ks_world) :
  a <> b ->
  let w_ab := snd (attr_store b buf_b count_b
                     (snd (attr_store a buf_a count_a w))) in
  let w_ba := snd (attr_store a buf_a count_a
                     (snd (attr_store b buf_b count_b w))) in
  ks_state w_ab = ks_state w_ba /\
  forall pin, gpio_level w_ab pin = gpio_level w_ba pin.
Proof.
  intros Hab. cbv zeta.
  destruct (attr_store_cases buf_a) as [(va & Hsa & Hva) | Hra];
  destruct (attr_store_cases buf_b) as [(vb & Hsb & Hvb) | Hrb].
  - rewrite (attr_store_accepted_run a buf_a count_a w va Hsa Hva).
    rewrite (attr_store_accepted_run b buf_b count_b w vb Hsb Hvb).
    cbn [snd].
    rewrite (attr_store_accepted_run b buf_b count_b _ vb Hsb Hvb).
    rewrite (attr_store_accepted_run a buf_a count_a _ va Hsa Hva).
    cbn [snd ks_state gpio_level].
    destruct a, b; try contradiction; cbn [attr_gpio];
      (split; [reflexivity|]); intros pin;
      unfold GPIO_CAMERA_KILL, GPIO_MIC_KILL, GPIO_CELLULAR_KILL;
      repeat match goal with
             | |- context [pin =? ?c] =>
                 destruct (Z.eqb_spec pin c)
             end; try reflexivity; lia.
  - rewrite !Hrb. cbn [snd]. split; reflexivity.
  - rewrite !Hra. cbn [snd]. split; reflexivity.
  - rewrite !Hra, !Hrb. cbn [snd]. rewrite ?Hra, ?Hrb. split; reflexivity.
Qed.

Lemma writes_to_distinct_attributes_commute_witness :
  ks_state
    (snd (@attr_store kernel_scanning killswitch_mic "1" 2
            (snd (@attr_store kernel_scanning killswitch_camera "0" 2
                    ks_world_camera_cellular_on)))) =
  ks_state
    (snd (@attr_store kernel_scanning killswitch_camera "0" 2
            (snd (@attr_store kernel_scanning killswitch_mic "1" 2
                    ks_world_camera_cellular_on)))).
Proof.
  apply (@writes_to_distinct_attributes_commute kernel_scanning
           killswitch_camera killswitch_mic "0" "1" 2 2
           ks_world_camera_cellular_on).
  discriminate.
Defined.

(** X11.  On one attribute the last accepted write wins: after a write
    that is accepted with 0 or 1, the recorded state and the level of
    every GPIO line are what that write alone would have produced,
    whatever was written to the same attribute just before. *)
Theorem last_accepted_write_wins
    {kernel : KernelLib}
    (a : attribute) (buf_1 buf_2 : string) (count_1 count_2 : Z)
    (w : ks_world) (v : Z) :
  sscanf_d buf_2 = Some v -> v = 0 \/ v = 1 ->
  let twice := snd (attr_store a buf_2 count_2
                      (snd (attr_store a buf_1 count_1 w))) in
  let once := snd (attr_store a buf_2 count_2 w) in
  ks_state twice = ks_state once /\
  forall pin, gpio_level twice pin = gpio_level once pin.
Proof.
  intros Hscan Hv. cbv zeta.
  rewrite (attr_store_accepted_run a buf_2 count_2 w v Hscan Hv).
  rewrite (attr_store_accepted_run a buf_2 count_2 _ v Hscan Hv).
  cbn [snd ks_state gpio_level].
  destruct (attr_store_cases buf_1) as [(v1 & Hs1 & Hv1) | Hrej].
  - rewrite (attr_store_accepted_run a buf_1 count_1 w v1 Hs1 Hv1).
    cbn [snd ks_state gpio_level].
    split; [destruct a; reflexivity|].
    intros pin. destruct (pin =? attr_gpio a); reflexivity.
  - rewrite Hrej. cbn [snd]. split; reflexivity.
Qed.

Lemma last_accepted_write_wins_witness :
  ks_state
    (snd (@attr_store kernel_scanning killswitch_camera "0" 2
            (snd (@attr_store kernel_scanning killswitch_camera "1" 2
                    ks_world_initial)))) =
  ks_state
    (snd (@attr_store kernel_scanning killswitch_camera "0" 2
            ks_world_initial)).
Proof.
  apply (@last_accepted_write_wins kernel_scanning killswitch_camera
           "1" "0" 2 2 ks_world_initial 0).
  - vm_compute. reflexivity.
  - left. reflexivity.
Defined.

(** X12.  No switch changes silently.  An accepted write of [v] appends
    exactly two entries to the kernel log, "GPIO <pin> set to <v>" for
    the attribute's line and the attribute's "kill switch: ENABLED ..."
    (for 1) or "... DISABLED ..." (for 0) entry, and logs them even when
    the value written is the one already stored; and a write after which
    the log is as it was has changed nothing at all. *)
Theorem every_state_change_is_logged
    {kernel : KernelLib}
    (a : attribute) (buf : string) (count : Z) (w : ks_world) :
  let w' := snd (attr_store a buf count w) in
  (forall v, sscanf_d buf = Some v -> v = 0 \/ v = 1 ->
     kernel_log w' =
     kernel_log w ++ [gpio_log_entry a v; switch_log_entry a v]) /\
  (kernel_log w' = kernel_log w -> w' = w).
Proof.
  cbv zeta. split.
  - intros v Hscan Hv.
    now rewrite (attr_store_accepted_run a buf count w v Hscan Hv).
  - destruct (attr_store_cases buf) as [(v & Hscan & Hv) | Hrej].
    + rewrite (attr_store_accepted_run a buf count w v Hscan Hv).
      cbn [snd kernel_log]. intros Hlog. exfalso.
      apply (f_equal (@List.length _)) in Hlog.
      rewrite length_app in Hlog. cbn [List.length] in Hlog. lia.
    + rewrite Hrej. reflexivity.
Qed.

Lemma every_state_change_is_logged_witness :
  kernel_log
    (snd (@attr_store kernel_scanning killswitch_cellular "1" 2
            ks_world_camera_cellular_on)) =
  kernel_log ks_world_camera_cellular_on ++
    [gpio_log_entry killswitch_cellular 1;
     switch_log_entry killswitch_cellular 1] /\
  snd (@attr_store kernel_scanning killswitch_cellular "off" 4
         ks_world_camera_cellular_on) = ks_world_camera_cellular_on.
Proof.
  split.
  - apply (@every_state_change_is_logged kernel_scanning
             killswitch_cellular "1" 2 ks_world_camera_cellular_on).
    + vm_compute. reflexivity.
    + right. reflexivity.
  - apply (@every_state_change_is_logged kernel_scanning
             killswitch_cellular "off" 4 ks_world_camera_cellular_on).
    vm_compute. reflexivity.
Defined.

(** X13.  The aggregate status is read-only and bounded.  [status_show]
    leaves the driver as it was, returns the length of the text it wrote,
    and that length is 32 plus the number of switches whose recorded
    state is non-zero (each "OFF" is one byte longer than "ON"): between
    32 and 35 bytes, whatever the state. *)
Theorem status_show_is_read_only_and_bounded (w : ks_world) :
  let count := fst (fst (status_show w)) in
  let text := snd (fst (status_show w)) in
  snd (status_show w) = w /\
  count = strlen text /\
  count = 32 + (if camera_enabled (ks_state w) =? 0 then 0 else 1)
             + (if mic_enabled (ks_state w) =? 0 then 0 else 1)
             + (if cellular_enabled (ks_state w) =? 0 then 0 else 1) /\
  32 <= count <= 35.
Proof.
  cbv zeta. unfold status_show. rewrite bind_run. cbn beta.
  unfold get_ks_state, ret. cbn [fst snd]. unfold off_or_on.
  destruct (camera_enabled (ks_state w) =? 0),
           (mic_enabled (ks_state w) =? 0),
           (cellular_enabled (ks_state w) =? 0);
    cbn [negb]; repeat split; vm_compute; congruence.
Qed.

(* ================================================================== *)
(** * Loading and unloading the module *)
(* ================================================================== *)

Ltac project :=
  cbn [fst snd negb world gpio_held ks_kobj ks_attr_group
       ks_state gpio_level kernel_log].

Lemma on_world_pr_info_run (format : string) (args : list log_arg)
    (s : ks_module) :
  on_world (pr_info format args) s =
  (tt, mk_ks_module
         (mk_ks_world (ks_state (world s)) (gpio_level (world s))
            (kernel_log (world s) ++ [(format, args)]))
         (gpio_held s) (ks_kobj s) (ks_attr_group s)).
Proof. reflexivity. Qed.

Lemma gpio_free_run (gpio_pin : Z) (s : ks_module) :
  gpio_free gpio_pin s =
  (tt, mk_ks_module (world s) (remove Z.eq_dec gpio_pin (gpio_held s))
         (ks_kobj s) (ks_attr_group s)).
Proof. reflexivity. Qed.

Lemma kobject_put_run (s : ks_module) :
  kobject_put s =
  (tt, mk_ks_module (world s) (gpio_held s) false (ks_attr_group s)).
Proof. reflexivity. Qed.

Lemma sysfs_remove_group_run (s : ks_module) :
  sysfs_remove_group s =
  (tt, mk_ks_module (world s) (gpio_held s) (ks_kobj s) false).
Proof. reflexivity. Qed.

Lemma gpio_set_state_run (gpio_pin value : Z) (s : ks_module) :
  on_world (gpio_set_state gpio_pin value) s =
  (tt, mk_ks_module
         (mk_ks_world (ks_state (world s))
            (fun pin => if pin =? gpio_pin
                        then (if value =? 0 then 0 else 1)
                        else gpio_level (world s) pin)
            (kernel_log (world s) ++
             [("[USB KillSwitch] GPIO %d set to %d\n",
               [arg_int gpio_pin; arg_int value])]))
         (gpio_held s) (ks_kobj s) (ks_attr_group s)).
Proof. reflexivity. Qed.

Ltac run_steps :=
  unfold gpio_cleanup, pr_err;
  repeat (rewrite bind_run; cbn beta;
          first [ rewrite gpio_free_run
                | rewrite kobject_put_run
                | rewrite sysfs_remove_group_run
                | rewrite gpio_set_state_run
                | rewrite on_world_pr_info_run ];
          project);
  rewrite ?gpio_free_run, ?on_world_pr_info_run;
  unfold ret; project.

Section LifecycleFacts.
Context {env : KernelEnv}.

Lemma gpio_request_run (gpio_pin : Z) (label : string) (s : ks_module) :
  gpio_request gpio_pin label s =
  (gpio_request_ret gpio_pin,
   if gpio_request_ret gpio_pin =? 0
   then mk_ks_module (world s) (gpio_pin :: gpio_held s)
          (ks_kobj s) (ks_attr_group s)
   else s).
Proof. reflexivity. Qed.

Lemma gpio_direction_output_run (gpio_pin value : Z) (s : ks_module) :
  gpio_direction_output gpio_pin value s =
  (gpio_direction_output_ret gpio_pin,
   if gpio_direction_output_ret gpio_pin =? 0
   then mk_ks_module
          (mk_ks_world (ks_state (world s))
             (fun pin => if pin =? gpio_pin
                         then (if value =? 0 then 0 else 1)
                         else gpio_level (world s) pin)
             (kernel_log (world s)))
          (gpio_held s) (ks_kobj s) (ks_attr_group s)
   else s).
Proof. reflexivity. Qed.

Lemma gpio_init_run (gpio_pin : Z) (label : string) (initial_value : Z)
    (s : ks_module) :
  gpio_init gpio_pin label initial_value s =
  if gpio_request_ret gpio_pin =? 0 then
    if gpio_direction_output_ret gpio_pin =? 0 then
      (0, mk_ks_module
            (mk_ks_world (ks_state (world s))
               (fun pin => if pin =? gpio_pin
                           then (if initial_value =? 0 then 0 else 1)
                           else gpio_level (world s) pin)
               (kernel_log (world s) ++
                [("[USB KillSwitch] GPIO %d (%s) initialized: %d\n",
                  [arg_int gpio_pin; arg_str label; arg_int initial_value])]))
            (gpio_pin :: gpio_held s) (ks_kobj s) (ks_attr_group s))
    else
      (gpio_direction_output_ret gpio_pin,
       mk_ks_module
         (mk_ks_world (ks_state (world s)) (gpio_level (world s))
            (kernel_log (world s) ++
             [("[USB KillSwitch] Failed to set GPIO %d direction: %d\n",
               [arg_int gpio_pin;
                arg_int (gpio_direction_output_ret gpio_pin)])]))
         (remove Z.eq_dec gpio_pin (gpio_pin :: gpio_held s))
         (ks_kobj s) (ks_attr_group s))
  else
    (gpio_request_ret gpio_pin,
     mk_ks_module
       (mk_ks_world (ks_state (world s)) (gpio_level (world s))
          (kernel_log (world s) ++
           [("[USB KillSwitch] Failed to request GPIO %d (%s): %d\n",
             [arg_int gpio_pin; arg_str label;
              arg_int (gpio_request_ret gpio_pin)])]))
       (gpio_held s) (ks_kobj s) (ks_attr_group s)).
Proof.
  unfold gpio_init. rewrite bind_run. cbn beta.
  rewrite gpio_request_run. project.
  destruct (gpio_request_ret gpio_pin =? 0) eqn:Ereq; project; rewrite ?Ereq;
    project.
  - rewrite bind_run. cbn beta.
    rewrite gpio_direction_output_run. project.
    destruct (gpio_direction_output_ret gpio_pin =? 0) eqn:Edir; project;
      rewrite ?Edir; project.
    + rewrite bind_run. cbn beta. reflexivity.
    + repeat (rewrite bind_run; cbn beta). reflexivity.
  - rewrite bind_run. cbn beta. reflexivity.
Qed.

Lemma kobject_create_and_add_run (name : string) (s : ks_module) :
  kobject_create_and_add name s =
  if kobject_create_and_add_ok
  then (true, mk_ks_module (world s) (gpio_held s) true (ks_attr_group s))
  else (false, s).
Proof. reflexivity. Qed.

Lemma sysfs_create_group_run (s : ks_module) :
  sysfs_create_group s =
  (sysfs_create_group_ret,
   if sysfs_create_group_ret =? 0
   then mk_ks_module (world s) (gpio_held s) (ks_kobj s) true
   else s).
Proof. reflexivity. Qed.

Ltac init_gpio pin :=
  rewrite bind_run; cbn beta; rewrite gpio_init_run;
  let Er := fresh "Ereq" in
  let Ed := fresh "Edir" in
  destruct (gpio_request_ret pin =? 0) eqn:Er;
  [ destruct (gpio_direction_output_ret pin =? 0) eqn:Ed | ];
  project; cbn [Z.eqb negb]; rewrite ?Er, ?Ed; cbn [negb];
  [ | run_steps | run_steps ].

Ltac init_sysfs :=
  rewrite bind_run; cbn beta; rewrite kobject_create_and_add_run;
  let Ek := fresh "Ekobj" in
  destruct kobject_create_and_add_ok eqn:Ek; project;
  [ rewrite bind_run; cbn beta; rewrite sysfs_create_group_run;
    let Es := fresh "Esysfs" in
    destruct (sysfs_create_group_ret =? 0) eqn:Es;
    project; rewrite ?Es; cbn [negb]; run_steps
  | run_steps ].

Ltac run_init :=
  unfold usb_killswitch_init;
  rewrite bind_run; cbn beta; rewrite on_world_pr_info_run; project;
  init_gpio GPIO_CAMERA_KILL;
  [ init_gpio GPIO_MIC_KILL;
    [ init_gpio GPIO_CELLULAR_KILL; [ init_sysfs | | ] | | ] | | ].

Lemma usb_killswitch_init_code (s : ks_module) :
  fst (usb_killswitch_init s) =
  match find (fun c => negb (c =? 0)) init_step_codes with
  | Some c => c
  | None => 0
  end.
Proof.
  unfold init_step_codes. run_init;
    cbn [find]; rewrite ?Ereq, ?Edir, ?Ereq0, ?Edir0, ?Ereq1, ?Edir1;
    cbn [negb find]; rewrite ?Ekobj; cbn [Z.eqb Z.opp ENOMEM negb find];
    rewrite ?Esysfs; cbn [negb find]; reflexivity.
Qed.

Lemma init_steps_all_succeed_iff :
  Forall (fun c => c = 0) init_step_codes <->
  gpio_request_ret GPIO_CAMERA_KILL = 0 /\
  gpio_direction_output_ret GPIO_CAMERA_KILL = 0 /\
  gpio_request_ret GPIO_MIC_KILL = 0 /\
  gpio_direction_output_ret GPIO_MIC_KILL = 0 /\
  gpio_request_ret GPIO_CELLULAR_KILL = 0 /\
  gpio_direction_output_ret GPIO_CELLULAR_KILL = 0 /\
  kobject_create_and_add_ok = true /\
  sysfs_create_group_ret = 0.
Proof.
  unfold init_step_codes. split.
  - intros H.
    repeat match goal with
           | H : Forall _ (_ :: _) |- _ => inversion H; clear H; subst
           end.
    repeat (split; [assumption|]). split; [|assumption].
    destruct kobject_create_and_add_ok; [reflexivity|discriminate].
  - intros (H1 & H2 & H3 & H4 & H5 & H6 & H7 & H8).
    rewrite H7. repeat (constructor; [assumption || reflexivity|]).
    constructor.
Qed.

Ltac step_cannot_fail :=
  match goal with
  | E : (?x =? 0) = false, H : ?x = 0 |- _ =>
      exfalso; rewrite H in E; discriminate E
  | E : kobject_create_and_add_ok = false,
    H : kobject_create_and_add_ok = true |- _ =>
      exfalso; rewrite H in E; discriminate E
  end.

(** The module after a load in which every step succeeded. *)
Lemma usb_killswitch_init_loaded (s : ks_module) :
  Forall (fun c => c = 0) init_step_codes ->
  let s' := snd (usb_killswitch_init s) in
  gpio_held s' =
    GPIO_CELLULAR_KILL :: GPIO_MIC_KILL :: GPIO_CAMERA_KILL :: gpio_held s /\
  ks_kobj s' = true /\
  ks_attr_group s' = true /\
  ks_state (world s') = ks_state (world s) /\
  forall pin,
    gpio_level (world s') pin =
    if (pin =? GPIO_CAMERA_KILL) || (pin =? GPIO_MIC_KILL)
       || (pin =? GPIO_CELLULAR_KILL)
    then 0 else gpio_level (world s) pin.
Proof.
  intros H. apply init_steps_all_succeed_iff in H.
  destruct H as (H1 & H2 & H3 & H4 & H5 & H6 & H7 & H8).
  apply Z.eqb_eq in H1, H2, H3, H4, H5, H6, H8.
  assert (E : exists level log,
             usb_killswitch_init s =
             (0, mk_ks_module (mk_ks_world (ks_state (world s)) level log)
                   (GPIO_CELLULAR_KILL :: GPIO_MIC_KILL :: GPIO_CAMERA_KILL
                      :: gpio_held s) true true) /\
             forall pin,
               level pin =
               if (pin =? GPIO_CAMERA_KILL) || (pin =? GPIO_MIC_KILL)
                  || (pin =? GPIO_CELLULAR_KILL)
               then 0 else gpio_level (world s) pin).
  { do 2 eexists. split.
    - unfold usb_killswitch_init.
      rewrite bind_run; cbn beta; rewrite on_world_pr_info_run; project.
      do 3 (rewrite bind_run; cbn beta; rewrite gpio_init_run;
            rewrite ?H1, ?H2, ?H3, ?H4, ?H5, ?H6; project; cbn [Z.eqb negb]).
      rewrite bind_run; cbn beta; rewrite kobject_create_and_add_run, H7.
      project.
      rewrite bind_run; cbn beta; rewrite sysfs_create_group_run, H8.
      project. rewrite ?H8. cbn [negb]. run_steps. reflexivity.
    - intros pin. cbn beta.
      destruct (pin =? GPIO_CAMERA_KILL), (pin =? GPIO_MIC_KILL),
               (pin =? GPIO_CELLULAR_KILL); reflexivity. }
  destruct E as (level & log & E & Hlevel).
  cbv zeta. rewrite E. project. repeat split. exact Hlevel.
Qed.

Lemma remove_cons_other (x y : Z) (l : list Z) :
  x <> y -> remove Z.eq_dec x (y :: l) = y :: remove Z.eq_dec x l.
Proof.
  intros H. cbn [remove]. destruct (Z.eq_dec x y); [contradiction|reflexivity].
Qed.

Ltac release_lines :=
  repeat first
    [ rewrite remove_cons
    | rewrite remove_cons_other by discriminate
    | match goal with
      | H : ~ In ?x ?l |- context [remove Z.eq_dec ?x ?l] =>
          rewrite (notin_remove Z.eq_dec l x H)
      end ].

Lemma remove_three_requested (l : list Z) :
  ~ In GPIO_CAMERA_KILL l -> ~ In GPIO_MIC_KILL l ->
  ~ In GPIO_CELLULAR_KILL l ->
  remove Z.eq_dec GPIO_CELLULAR_KILL
    (remove Z.eq_dec GPIO_MIC_KILL
       (remove Z.eq_dec GPIO_CAMERA_KILL
          (GPIO_CELLULAR_KILL :: GPIO_MIC_KILL :: GPIO_CAMERA_KILL :: l))) = l.
Proof. intros Hc Hm Hl. release_lines. reflexivity. Qed.

(** The module after a load that failed. *)
Lemma usb_killswitch_init_failed (s : ks_module) :
  ~ In GPIO_CAMERA_KILL (gpio_held s) ->
  ~ In GPIO_MIC_KILL (gpio_held s) ->
  ~ In GPIO_CELLULAR_KILL (gpio_held s) ->
  fst (usb_killswitch_init s) <> 0 ->
  let s' := snd (usb_killswitch_init s) in
  gpio_held s' = gpio_held s /\
  ks_attr_group s' = ks_attr_group s /\
  (ks_kobj s = false -> ks_kobj s' = false) /\
  ks_state (world s') = ks_state (world s).
Proof.
  intros Hc Hm Hl. cbv zeta.
  set (P := fun rs : Z * ks_module =>
              fst rs <> 0 ->
              gpio_held (snd rs) = gpio_held s /\
              ks_attr_group (snd rs) = ks_attr_group s /\
              (ks_kobj s = false -> ks_kobj (snd rs) = false) /\
              ks_state (world (snd rs)) = ks_state (world s)).
  change (P (usb_killswitch_init s)).
  run_init; subst P; cbv beta; project;
    try (intros _; release_lines; now auto).
  intros H. contradiction H. reflexivity.
Qed.

End LifecycleFacts.

Lemma on_world_frame {A : Type} (m : M ks_world A) (s : ks_module) :
  world (snd (on_world m s)) = snd (m (world s)) /\
  gpio_held (snd (on_world m s)) = gpio_held s /\
  ks_kobj (snd (on_world m s)) = ks_kobj s /\
  ks_attr_group (snd (on_world m s)) = ks_attr_group s.
Proof. unfold on_world. destruct (m (world s)). repeat split. Qed.

(** The module after an unload. *)
Lemma usb_killswitch_exit_unloaded (s : ks_module) :
  let s' := snd (usb_killswitch_exit s) in
  gpio_held s' =
    remove Z.eq_dec GPIO_CELLULAR_KILL
      (remove Z.eq_dec GPIO_MIC_KILL
         (remove Z.eq_dec GPIO_CAMERA_KILL (gpio_held s))) /\
  ks_kobj s' = false /\
  ks_attr_group s' = false /\
  ks_state (world s') = ks_state (world s) /\
  forall pin,
    gpio_level (world s') pin =
    if (pin =? GPIO_CAMERA_KILL) || (pin =? GPIO_MIC_KILL)
       || (pin =? GPIO_CELLULAR_KILL)
    then 0 else gpio_level (world s) pin.
Proof.
  cbv zeta.
  set (P := fun rs : unit * ks_module =>
              gpio_held (snd rs) =
                remove Z.eq_dec GPIO_CELLULAR_KILL
                  (remove Z.eq_dec GPIO_MIC_KILL
                     (remove Z.eq_dec GPIO_CAMERA_KILL (gpio_held s))) /\
              ks_kobj (snd rs) = false /\
              ks_attr_group (snd rs) = false /\
              ks_state (world (snd rs)) = ks_state (world s) /\
              forall pin,
                gpio_level (world (snd rs)) pin =
                if (pin =? GPIO_CAMERA_KILL) || (pin =? GPIO_MIC_KILL)
                   || (pin =? GPIO_CELLULAR_KILL)
                then 0 else gpio_level (world s) pin).
  change (P (usb_killswitch_exit s)).
  unfold usb_killswitch_exit. run_steps. subst P. cbv beta. project.
  repeat split.
  intros pin. cbn [Z.eqb].
  destruct (pin =? GPIO_CAMERA_KILL), (pin =? GPIO_MIC_KILL),
           (pin =? GPIO_CELLULAR_KILL); reflexivity.
Qed.

Lemma first_failure_zero_iff (codes : list Z) :
  match find (fun c => negb (c =? 0)) codes with
  | Some c => c
  | None => 0
  end = 0 <-> Forall (fun c => c = 0) codes.
Proof.
  induction codes as [|c codes IH]; cbn [find].
  - split; [constructor | reflexivity].
  - destruct (Z.eqb_spec c 0) as [E|N]; cbn [negb].
    + rewrite IH. split.
      * intros H. now constructor.
      * intros H. now inversion H.
    + split; [contradiction|]. intros H. now inversion H.
Qed.

Lemma not_held_after_exit (pin : Z) (l : list Z) :
  pin = GPIO_CAMERA_KILL \/ pin = GPIO_MIC_KILL \/ pin = GPIO_CELLULAR_KILL ->
  ~ In pin
      (remove Z.eq_dec GPIO_CELLULAR_KILL
         (remove Z.eq_dec GPIO_MIC_KILL
            (remove Z.eq_dec GPIO_CAMERA_KILL l))).
Proof.
  intros Hpin Hin.
  apply in_remove in Hin. destruct Hin as [Hin Hcell].
  apply in_remove in Hin. destruct Hin as [Hin Hmic].
  apply in_remove in Hin. destruct Hin as [_ Hcam].
  destruct Hpin as [E|[E|E]]; contradiction.
Qed.

(** X14.  [usb_killswitch_init] reports the first step that fails.  Its
    steps are, in order: request and set the direction of the camera
    line, of the microphone line, of the cellular line, create the
    kobject, register the attribute group.  It returns the value returned
    by the first of them that fails (for the kobject, [-ENOMEM]) and does
    not attempt the later ones' codes; it returns 0 exactly when every
    step succeeded. *)
Theorem init_returns_first_failure {env : KernelEnv} (s : ks_module) :
  fst (usb_killswitch_init s) =
    match find (fun c => negb (c =? 0)) init_step_codes with
    | Some c => c
    | None => 0
    end /\
  (fst (usb_killswitch_init s) = 0 <->
   Forall (fun c => c = 0) init_step_codes).
Proof.
  split; [apply usb_killswitch_init_code|].
  rewrite usb_killswitch_init_code. apply first_failure_zero_iff.
Qed.

(** X15.  A failed load leaks nothing.  If none of the three lines is
    held when [usb_killswitch_init] starts and it returns an error, then
    every GPIO line it requested on the way has been freed again (the
    held lines are those held before), the attribute group is not
    registered, no kobject is left behind, and the recorded switch state
    is untouched. *)
Theorem failed_init_releases_everything {env : KernelEnv} (s : ks_module) :
  ~ In GPIO_CAMERA_KILL (gpio_held s) ->
  ~ In GPIO_MIC_KILL (gpio_held s) ->
  ~ In GPIO_CELLULAR_KILL (gpio_held s) ->
  ks_kobj s = false ->
  ks_attr_group s = false ->
  fst (usb_killswitch_init s) <> 0 ->
  let s' := snd (usb_killswitch_init s) in
  gpio_held s' = gpio_held s /\
  ks_kobj s' = false /\
  ks_attr_group s' = false /\
  ks_state (world s') = ks_state (world s).
Proof.
  intros Hc Hm Hl Hkobj Hgroup Hfail. cbv zeta.
  destruct (usb_killswitch_init_failed s Hc Hm Hl Hfail)
    as (Hheld & Hg & Hk & Hstate).
  cbv zeta in Hheld, Hg, Hk, Hstate.
  repeat split; try assumption.
  - now apply Hk.
  - now rewrite Hg.
Qed.

Lemma failed_init_releases_everything_witness :
  fst (@usb_killswitch_init env_cellular_direction_fails ks_module_unloaded)
    = - EINVAL /\
  gpio_held
    (snd (@usb_killswitch_init env_cellular_direction_fails
            ks_module_unloaded)) = [] /\
  gpio_held (snd (@usb_killswitch_init env_sysfs_fails ks_module_unloaded))
    = [] /\
  ks_kobj (snd (@usb_killswitch_init env_sysfs_fails ks_module_unloaded))
    = false.
Proof.
  assert (Hfree : forall pin, ~ In pin (gpio_held ks_module_unloaded))
    by (intros pin []).
  split; [vm_compute; reflexivity|]. split; [|split].
  - apply (@failed_init_releases_everything env_cellular_direction_fails
             ks_module_unloaded); try apply Hfree; try reflexivity.
    vm_compute. discriminate.
  - apply (@failed_init_releases_everything env_sysfs_fails
             ks_module_unloaded); try apply Hfree; try reflexivity.
    vm_compute. discriminate.
  - apply (@failed_init_releases_everything env_sysfs_fails
             ks_module_unloaded); try apply Hfree; try reflexivity.
    vm_compute. discriminate.
Defined.

(** X16.  A successful load.  When every step succeeds,
    [usb_killswitch_init] returns 0 holding exactly the three lines in
    addition to those held before, with the kobject created and the
    attribute group registered; the three lines are driven low and no
    other line is touched.  If the recorded switch state is the initial
    one (all 0), the lines mirror the recorded state from then on. *)
Theorem successful_init_holds_lines_low {env : KernelEnv} (s : ks_module) :
  Forall (fun c => c = 0) init_step_codes ->
  let s' := snd (usb_killswitch_init s) in
  fst (usb_killswitch_init s) = 0 /\
  gpio_held s' =
    GPIO_CELLULAR_KILL :: GPIO_MIC_KILL :: GPIO_CAMERA_KILL :: gpio_held s /\
  ks_kobj s' = true /\
  ks_attr_group s' = true /\
  (forall a, gpio_level (world s') (attr_gpio a) = 0) /\
  (forall pin,
     pin <> GPIO_CAMERA_KILL -> pin <> GPIO_MIC_KILL ->
     pin <> GPIO_CELLULAR_KILL ->
     gpio_level (world s') pin = gpio_level (world s) pin) /\
  (ks_state (world s) = ks_state_initial -> lines_mirror_state (world s')).
Proof.
  intros Hok. cbv zeta.
  destruct (usb_killswitch_init_loaded s Hok)
    as (Hheld & Hkobj & Hgroup & Hstate & Hlevel).
  cbv zeta in Hheld, Hkobj, Hgroup, Hstate, Hlevel.
  assert (Hlow : forall a,
             gpio_level (world (snd (usb_killswitch_init s))) (attr_gpio a) = 0)
    by (intros a; rewrite Hlevel; destruct a; reflexivity).
  split; [rewrite usb_killswitch_init_code; now apply first_failure_zero_iff|].
  repeat (split; [assumption|]). split.
  - intros pin Hc Hm Hl. rewrite Hlevel.
    apply Z.eqb_neq in Hc, Hm, Hl. now rewrite Hc, Hm, Hl.
  - intros Hinit a. rewrite Hlow, Hstate, Hinit.
    destruct a; cbn; auto.
Qed.

Lemma successful_init_holds_lines_low_witness :
  gpio_held (snd (@usb_killswitch_init env_all_ok ks_module_unloaded)) =
    [GPIO_CELLULAR_KILL; GPIO_MIC_KILL; GPIO_CAMERA_KILL] /\
  lines_mirror_state
    (world (snd (@usb_killswitch_init env_all_ok ks_module_unloaded))).
Proof.
  assert (Hok : Forall (fun c => c = 0) (@init_step_codes env_all_ok))
    by (repeat constructor).
  split.
  - apply (@successful_init_holds_lines_low env_all_ok ks_module_unloaded Hok).
  - apply (@successful_init_holds_lines_low env_all_ok ks_module_unloaded Hok).
    reflexivity.
Defined.

(** X17.  Unloading restores normal operation.  Whatever the switches
    were set to, after [usb_killswitch_exit] the three lines are low
    (peripherals connected) and none of them is held any more, the
    attribute group and the kobject are gone, and no other line has been
    touched.  The recorded switch state is not reset. *)
Theorem exit_drives_lines_low_and_releases_them (s : ks_module) :
  let s' := snd (usb_killswitch_exit s) in
  (forall a, gpio_level (world s') (attr_gpio a) = 0) /\
  (forall a, ~ In (attr_gpio a) (gpio_held s')) /\
  (forall pin, In pin (gpio_held s') -> In pin (gpio_held s)) /\
  ks_kobj s' = false /\
  ks_attr_group s' = false /\
  (forall pin,
     pin <> GPIO_CAMERA_KILL -> pin <> GPIO_MIC_KILL ->
     pin <> GPIO_CELLULAR_KILL ->
     gpio_level (world s') pin = gpio_level (world s) pin) /\
  ks_state (world s') = ks_state (world s).
Proof.
  cbv zeta.
  destruct (usb_killswitch_exit_unloaded s)
    as (Hheld & Hkobj & Hgroup & Hstate & Hlevel).
  cbv zeta in Hheld, Hkobj, Hgroup, Hstate, Hlevel.
  split; [intros a; rewrite Hlevel; destruct a; reflexivity|].
  split; [intros a; rewrite Hheld; apply not_held_after_exit;
          destruct a; auto|].
  split.
  { intros pin. rewrite Hheld. intros Hin.
    apply in_remove in Hin. destruct Hin as [Hin _].
    apply in_remove in Hin. destruct Hin as [Hin _].
    apply in_remove in Hin. now destruct Hin. }
  repeat (split; [assumption|]). split; [|assumption].
  intros pin Hc Hm Hl. rewrite Hlevel.
  apply Z.eqb_neq in Hc, Hm, Hl. now rewrite Hc, Hm, Hl.
Qed.

(** X18.  Load, use, unload.  Starting with none of the three lines
    held, a load in which every step succeeds, followed by any sequence
    of writes to the attributes and by an unload, gives back exactly the
    lines that were held at the start, leaves the three kill-switch lines
    low whatever was written, and leaves nothing in sysfs. *)
Theorem load_use_unload_restores_the_lines
    {env : KernelEnv} {kernel : KernelLib}
    (writes : list (attribute * string * Z)) (s : ks_module) :
  Forall (fun c => c = 0) init_step_codes ->
  ~ In GPIO_CAMERA_KILL (gpio_held s) ->
  ~ In GPIO_MIC_KILL (gpio_held s) ->
  ~ In GPIO_CELLULAR_KILL (gpio_held s) ->
  let loaded := snd (usb_killswitch_init s) in
  let used := snd (on_world (write_all writes) loaded) in
  let unloaded := snd (usb_killswitch_exit used) in
  gpio_held unloaded = gpio_held s /\
  (forall a, gpio_level (world unloaded) (attr_gpio a) = 0) /\
  ks_kobj unloaded = false /\
  ks_attr_group unloaded = false.
Proof.
  intros Hok Hc Hm Hl. cbv zeta.
  destruct (usb_killswitch_init_loaded s Hok) as (Hheld & _).
  cbv zeta in Hheld.
  destruct (on_world_frame (write_all writes) (snd (usb_killswitch_init s)))
    as (_ & Hheld' & _).
  destruct (usb_killswitch_exit_unloaded
              (snd (on_world (write_all writes) (snd (usb_killswitch_init s)))))
    as (Hheld'' & Hkobj & Hgroup & _ & Hlevel).
  cbv zeta in Hheld'', Hkobj, Hgroup, Hlevel.
  split; [|split; [|split; assumption]].
  - rewrite Hheld'', Hheld', Hheld. now apply remove_three_requested.
  - intros a. rewrite Hlevel. destruct a; reflexivity.
Qed.

Lemma load_use_unload_restores_the_lines_witness :
  gpio_held
    (snd (usb_killswitch_exit
            (snd (on_world
                    (@write_all kernel_scanning
                       [(killswitch_camera, "1", 2);
                        (killswitch_cellular, "1", 2)])
                    (snd (@usb_killswitch_init env_all_ok
                            ks_module_unloaded)))))) = [].
Proof.
  apply (@load_use_unload_restores_the_lines env_all_ok kernel_scanning
           [(killswitch_camera, "1", 2); (killswitch_cellular, "1", 2)]
           ks_module_unloaded).
  - repeat constructor.
  - intros [].
  - intros [].
  - intros [].
Defined.
